(** * Half-day grid projection of the calendar embed (calendar_embed/app.js)

    A shallow embedding of the date arithmetic, of [halfIndex], of
    [computeEventSpan] and of the per-property bookkeeping of the two
    renderers ([renderCalendar], [renderSingleProperty]), with the
    properties the design document states about them.

    Modelling conventions.
    - A JavaScript [Date] is its time value: an integer number of
      milliseconds since the epoch ([Z]).  Subtraction and comparison of
      two [Date]s work on the time values, as [dateObj - rangeStart] and
      [eventEnd <= rangeStart] do in the source.  Invalid dates (NaN) are
      outside the model.
    - Number arithmetic is exact integer arithmetic.  Every quantity the
      program computes from day-aligned dates is an integer far below
      2^53, where binary64 is exact.
    - [event.start] and [event.end] are zero-padded [YYYY-MM-DD] strings.
      The model keeps the three numbers that
      [value.split('-').map(Number)] reads out of such a string
      ([ISODate]); in that fixed format the string and the triple
      determine each other, so equality of triples stands for equality of
      the strings used as [Set] and [Map] keys.
    - A JavaScript [Set] is an insertion-ordered list without duplicates,
      a [Map] an insertion-ordered association list. *)

From Stdlib Require Import ZArith List String Bool Lia.
Import ListNotations.

Local Open Scope string_scope.
Local Open Scope list_scope.
Local Open Scope Z_scope.

(* ------------------------------------------------------------------ *)
(** ** Calendar arithmetic *)

Module Calendar.

(** A [Date] object, as its time value in milliseconds. *)
Definition Date := Z.

(** [24 * 60 * 60 * 1000] *)
Definition msPerDay : Z := 24 * 60 * 60 * 1000.

(** [Math.round(x / d)] for integers [x] and a positive [d]: the nearest
    integer, a tie going up ([Math.round(-1.5)] is [-1]). *)
Definition Math_round_div (x d : Z) : Z := (2 * x + d) / (2 * d).

(** ECMAScript's calendar, which [Date.UTC] is defined by. *)
Definition InLeapYear (y : Z) : bool :=
  (y mod 4 =? 0) && (negb (y mod 100 =? 0) || (y mod 400 =? 0)).

Definition DayFromYear (y : Z) : Z :=
  365 * (y - 1970) + (y - 1969) / 4 - (y - 1901) / 100 + (y - 1601) / 400.

(** Day within the year of the first day of month [mn] (0 = January). *)
Definition DayOfMonthStart (mn : Z) (leap : bool) : Z :=
  let l := if leap then 1 else 0 in
  match mn with
  | 0 => 0
  | 1 => 31
  | 2 => 59 + l
  | 3 => 90 + l
  | 4 => 120 + l
  | 5 => 151 + l
  | 6 => 181 + l
  | 7 => 212 + l
  | 8 => 243 + l
  | 9 => 273 + l
  | 10 => 304 + l
  | _ => 334 + l
  end.

(** [MakeDay(year, month, date)]: months outside 0..11 carry into the
    year, days outside the month carry linearly. *)
Definition MakeDay (year month date : Z) : Z :=
  let ym := year + month / 12 in
  let mn := month mod 12 in
  DayFromYear ym + DayOfMonthStart mn (InLeapYear ym) + date - 1.

(** [Date.UTC] reads a year from 0 to 99 as 1900 + year. *)
Definition MakeFullYear (y : Z) : Z :=
  if (0 <=? y) && (y <=? 99) then 1900 + y else y.

Definition Date_UTC (year month day : Z) : Z :=
  MakeDay (MakeFullYear year) month day * msPerDay.

(** [function makeUTCDate(year, month, day)] *)
Definition makeUTCDate (year month day : Z) : Date := Date_UTC year month day.

(** [function addDays(dateObj, days)]: [setUTCDate(getUTCDate() + days)]
    keeps the time within the day and moves the day number by [days]. *)
Definition addDays (dateObj : Date) (days : Z) : Date :=
  dateObj + days * msPerDay.

(** [function diffDays(start, end)] *)
Definition diffDays (start end_ : Date) : Z :=
  Math_round_div (end_ - start) msPerDay.

(** The three numbers of a [YYYY-MM-DD] string. *)
Record ISODate := mkISO { iso_year : Z; iso_month : Z; iso_day : Z }.

Definition ISODate_eqb (a b : ISODate) : bool :=
  (iso_year a =? iso_year b) && (iso_month a =? iso_month b)
  && (iso_day a =? iso_day b).

(** [function parseDate(value)] *)
Definition parseDate (value : ISODate) : Date :=
  makeUTCDate (iso_year value) (iso_month value - 1) (iso_day value).

(** Length of a calendar month (0 = January), by the Gregorian rule;
    stated apart from [MakeDay] to compare the two. *)
Definition daysInMonth (year mn : Z) : Z :=
  match mn with
  | 1 => if InLeapYear year then 29 else 28
  | 3 | 5 | 8 | 10 => 30
  | _ => 31
  end.

(** A time value that falls on a UTC midnight. *)
Definition day_aligned (t : Date) : Prop := t mod msPerDay = 0.

End Calendar.
Export Calendar.

(* ------------------------------------------------------------------ *)
(** ** Half-day index *)

(** [function halfIndex(dateObj, rangeStart, half)] *)
Definition halfIndex (dateObj rangeStart : Date) (half : string) : Z :=
  let diffDays := Math_round_div (dateObj - rangeStart) msPerDay in
  diffDays * 2 + (if String.eqb half "pm" then 2 else 1).

(* ------------------------------------------------------------------ *)
(** ** JavaScript [Set] and [Map] *)

(** Key equality of [Set] and [Map] (SameValueZero), per key type. *)
Class SameValueZero (K : Type) := same : K -> K -> bool.

#[export] Instance string_same : SameValueZero string := String.eqb.
#[export] Instance ISODate_same : SameValueZero ISODate := ISODate_eqb.

(** The key equality decides equality of keys. *)
Class SameValueZeroLaws (K : Type) `{SameValueZero K} :=
  same_eq : forall a b : K, same a b = true <-> a = b.

Module JSSet.
Section Ops.
Context {K : Type} `{SameValueZero K}.

Definition t := list K.

(** [new Set()] *)
Definition empty : t := [].

(** [s.has(k)] *)
Definition has (s : t) (k : K) : bool := existsb (same k) s.

(** [s.add(k)]: a key already present keeps its place. *)
Definition add (s : t) (k : K) : t := if has s k then s else s ++ [k].

(** [new Set(array)] *)
Definition of_list (l : list K) : t := fold_left add l empty.
End Ops.
#[global] Arguments t K : clear implicits.
End JSSet.

Module JSMap.
Section Ops.
Context {K V : Type} `{SameValueZero K}.

Definition t := list (K * V).

(** [new Map()] *)
Definition empty : t := [].

(** [m.get(k)], [None] for [undefined]. *)
Fixpoint get (m : t) (k : K) : option V :=
  match m with
  | [] => None
  | (k', v) :: m' => if same k k' then Some v else get m' k
  end.

(** [m.has(k)] *)
Definition has (m : t) (k : K) : bool :=
  match get m k with Some _ => true | None => false end.

(** [m.set(k, v)]: an existing key keeps its place. *)
Fixpoint set (m : t) (k : K) (v : V) : t :=
  match m with
  | [] => [(k, v)]
  | (k', v') :: m' =>
      if same k k' then (k', v) :: m' else (k', v') :: set m' k v
  end.

(** [[...m.keys()]] *)
Definition keys (m : t) : list K := map fst m.
End Ops.
#[global] Arguments t K V : clear implicits.
End JSMap.

(* ------------------------------------------------------------------ *)
(** ** Data model *)

(** An entry of [property.events]. *)
Record Event := mkEvent {
  uid : string;
  type : string;
  start : ISODate;
  end_ : ISODate;
  summary : string
}.

(** An entry of [calendarData.properties]. *)
Record Property := mkProperty {
  name : string;
  events : list Event
}.

(** The object [{ startHalf, endHalf }]. *)
Record Span := mkSpan { startHalf : Z; endHalf : Z }.

(** [event.type === 'closed'] *)
Definition isClosed (event : Event) : bool := String.eqb (type event) "closed".

(* ------------------------------------------------------------------ *)
(** ** Event span projection *)

(** [function computeEventSpan(event, rangeStart, rangeEndExclusive,
    reservationCheckouts)]; [None] is [null]. *)
Definition computeEventSpan (event : Event) (rangeStart rangeEndExclusive : Date)
    (reservationCheckouts : JSSet.t ISODate) : option Span :=
  let eventStart := parseDate (start event) in
  let eventEnd := parseDate (end_ event) in
  if (eventEnd <=? rangeStart) || (eventStart >=? rangeEndExclusive) then None
  else
    let displayStart := if eventStart <? rangeStart then rangeStart else eventStart in
    let displayEnd :=
      if eventEnd >? rangeEndExclusive then rangeEndExclusive else eventEnd in
    let days := Math_round_div (rangeEndExclusive - rangeStart) msPerDay in
    if isClosed event then
      let startsOnCheckout := JSSet.has reservationCheckouts (start event) in
      let startHalf :=
        halfIndex displayStart rangeStart (if startsOnCheckout then "pm" else "am") in
      let endHalf :=
        if eventEnd >=? rangeEndExclusive then days * 2 + 1
        else halfIndex displayEnd rangeStart "am" in
      Some (mkSpan startHalf endHalf)
    else
      let startHalf :=
        if eventStart <? rangeStart then halfIndex rangeStart rangeStart "am"
        else halfIndex displayStart rangeStart "pm" in
      let endHalf :=
        if eventEnd >=? rangeEndExclusive then days * 2 + 1
        else halfIndex displayEnd rangeStart "am" + 1 in
      Some (mkSpan startHalf endHalf).

(** The interval [renderCalendar] draws for one event: the body of its
    second [property.events.forEach], which calls [computeEventSpan],
    returns on [!span] and returns on [endHalf <= startHalf].  This
    composite is what the design document calls [project]. *)
Definition project (event : Event) (rangeStart rangeEndExclusive : Date)
    (reservationCheckouts : JSSet.t ISODate) : option Span :=
  match computeEventSpan event rangeStart rangeEndExclusive reservationCheckouts with
  | None => None
  | Some span =>
      if endHalf span <=? startHalf span then None else Some span
  end.

(** [dayDiff(rangeEndExclusive, rangeStart) * 2], the [days * 2] of
    [computeEventSpan]. *)
Definition totalHalves (rangeStart rangeEndExclusive : Date) : Z :=
  diffDays rangeStart rangeEndExclusive * 2.

(** The pill [renderSingleProperty] draws for one event in the week row
    that starts at [weekStart]: the body of [events.forEach] inside the
    loop over weeks, columns [colStart] / [colEnd]. *)
Definition weekPill (event : Event) (weekStart : Date)
    (reservationCheckouts : JSSet.t ISODate) : option Span :=
  let startDate := parseDate (start event) in
  let endDate := parseDate (end_ event) in
  if (endDate <=? weekStart) || (startDate >=? addDays weekStart 7) then None
  else
    let rangeStart := weekStart in
    let rangeEndExclusive := addDays weekStart 7 in
    let displayStart := if startDate <? rangeStart then rangeStart else startDate in
    let displayEnd :=
      if endDate >? rangeEndExclusive then rangeEndExclusive else endDate in
    if displayEnd <=? displayStart then None
    else
      let '(colStart, colEnd) :=
        if isClosed event then
          let startsOnCheckout := JSSet.has reservationCheckouts (start event) in
          (halfIndex displayStart rangeStart (if startsOnCheckout then "pm" else "am"),
           if endDate >=? rangeEndExclusive then 7 * 2 + 1
           else halfIndex displayEnd rangeStart "am")
        else
          (if startDate <? rangeStart then halfIndex rangeStart rangeStart "am"
           else halfIndex displayStart rangeStart "pm",
           if endDate >=? rangeEndExclusive then 7 * 2 + 1
           else halfIndex displayEnd rangeStart "am" + 1) in
      if colEnd <=? colStart then None else Some (mkSpan colStart colEnd).

(* ------------------------------------------------------------------ *)
(** ** Per-property bookkeeping of the rolling-window renderer *)

Module Rolling.

(** The three sets [renderCalendar] fills per property. *)
Record Sets := mkSets {
  reservationStarts : JSSet.t ISODate;
  reservationEnds : JSSet.t ISODate;
  reservationCheckouts : JSSet.t ISODate
}.

(** One step of the first [property.events.forEach]. *)
Definition collect_step (acc : Sets) (event : Event) : Sets :=
  if isClosed event then acc
  else mkSets (JSSet.add (reservationStarts acc) (start event))
              (JSSet.add (reservationEnds acc) (end_ event))
              (JSSet.add (reservationCheckouts acc) (end_ event)).

Definition collect (property : Property) : Sets :=
  fold_left collect_step (events property)
            (mkSets JSSet.empty JSSet.empty JSSet.empty).

(** [new Set([...reservationStarts].filter((dateStr) =>
    reservationEnds.has(dateStr)))] *)
Definition quickTurns (property : Property) : JSSet.t ISODate :=
  let sets := collect property in
  JSSet.of_list
    (filter (fun dateStr => JSSet.has (reservationEnds sets) dateStr)
            (reservationStarts sets)).

(** [const VIEW_DAYS = 365] and [const MIN_DATE = makeUTCDate(2026, 0, 1)] *)
Definition VIEW_DAYS : Z := 365.
Definition MIN_DATE : Date := makeUTCDate 2026 0 1.

(** The window of [renderCalendar], ([rangeStart], [rangeEndExclusive]),
    for the current value of the global [viewStart]. *)
Definition window (viewStart : Date) : Date * Date :=
  let daysFromMin := diffDays MIN_DATE viewStart in
  let rangeStart :=
    if (daysFromMin >=? 0) && (daysFromMin <? VIEW_DAYS) then MIN_DATE
    else viewStart in
  (rangeStart, addDays rangeStart VIEW_DAYS).

(** The intervals drawn for a property, in event order. *)
Definition spans (property : Property) (rangeStart rangeEndExclusive : Date)
    : list (option Span) :=
  map (fun event =>
         project event rangeStart rangeEndExclusive
                 (reservationCheckouts (collect property)))
      (events property).

End Rolling.

(* ------------------------------------------------------------------ *)
(** ** Per-property bookkeeping of the month renderer *)

Module Month.

Definition IdMap := JSMap.t ISODate (JSSet.t string).

(** [if (!m.has(dateStr)) m.set(dateStr, new Set());
    m.get(dateStr).add(id)]; the [Set] stored in the map is updated in
    place. *)
Definition add_id (m : IdMap) (dateStr : ISODate) (id : string) : IdMap :=
  let m1 := if JSMap.has m dateStr then m else JSMap.set m dateStr JSSet.empty in
  match JSMap.get m1 dateStr with
  | Some ids => JSMap.set m1 dateStr (JSSet.add ids id)
  | None => m1
  end.

(** One step of the first [events.forEach] of [renderSingleProperty];
    the pair is ([reservationStarts], [reservationEnds]). *)
Definition collect_step (acc : IdMap * IdMap) (event : Event) : IdMap * IdMap :=
  if negb (isClosed event) then
    (add_id (fst acc) (start event) (uid event),
     add_id (snd acc) (end_ event) (uid event))
  else acc.

(** [property.events.map(...).filter(...)] keeps every event: a [Date]
    object is truthy. *)
Definition collect (property : Property) : IdMap * IdMap :=
  fold_left collect_step (events property) (JSMap.empty, JSMap.empty).

(** One step of [reservationStarts.forEach((startIds, dateStr) => ...)]. *)
Definition quickTurns_step (reservationEnds : IdMap)
    (quickTurns : JSSet.t ISODate) (entry : ISODate * JSSet.t string)
    : JSSet.t ISODate :=
  let '(dateStr, startIds) := entry in
  match JSMap.get reservationEnds dateStr with
  | None => quickTurns
  | Some endIds =>
      let hasDifferent := existsb (fun id => negb (JSSet.has endIds id)) startIds in
      if hasDifferent then JSSet.add quickTurns dateStr else quickTurns
  end.

Definition quickTurns (property : Property) : JSSet.t ISODate :=
  let '(reservationStarts, reservationEnds) := collect property in
  fold_left (quickTurns_step reservationEnds) reservationStarts JSSet.empty.

(** [new Set([...reservationEnds.keys()])] *)
Definition reservationCheckouts (property : Property) : JSSet.t ISODate :=
  JSSet.of_list (JSMap.keys (snd (collect property))).

(** The pills of the week row starting at [weekStart], in event order. *)
Definition pills (property : Property) (weekStart : Date) : list (option Span) :=
  map (fun event => weekPill event weekStart (reservationCheckouts property))
      (events property).

End Month.

(* ------------------------------------------------------------------ *)
(** ** Quick turn, as the design document words it *)

(** A date on which one booking's checkout and a different booking's
    arrival coincide; bookings are told apart by [uid], and a booking is
    an event that is not a closed period. *)
Definition QuickTurnDate (property : Property) (D : ISODate) : Prop :=
  exists checkout arrival,
    In checkout (events property) /\ In arrival (events property) /\
    isClosed checkout = false /\ isClosed arrival = false /\
    end_ checkout = D /\ start arrival = D /\
    uid checkout <> uid arrival.

(** A booking of the property: an event that is not a closed period. *)
Definition Booking (property : Property) (event : Event) : Prop :=
  In event (events property) /\ isClosed event = false.

(** The data the feed builder is meant to deliver: every event ends
    after it starts, and no two events share a [uid]. *)
Definition WellFormed (property : Property) : Prop :=
  (forall event, In event (events property) ->
                 parseDate (start event) < parseDate (end_ event)) /\
  (forall e1 e2, In e1 (events property) -> In e2 (events property) ->
                 uid e1 = uid e2 -> e1 = e2).

(** What an id map of the month renderer records about the events
    [seen] so far, for the date [key] it is indexed by. *)
Definition Tracks (key : Event -> ISODate) (m : Month.IdMap) (seen : list Event)
    : Prop :=
  NoDup (JSMap.keys m) /\
  (forall D, In D (JSMap.keys m) <->
             exists e, In e seen /\ isClosed e = false /\ key e = D) /\
  (forall D ids, JSMap.get m D = Some ids ->
     forall id, In id ids <->
                exists e, In e seen /\ isClosed e = false /\ key e = D /\ uid e = id).

(* ------------------------------------------------------------------ *)
(** ** Sample data *)

Module Samples.

Definition d (y m dd : Z) : ISODate := mkISO y m dd.

Definition reservation (id : string) (s e : ISODate) : Event :=
  mkEvent id "reservation" s e "Reserved".

Definition closed (id : string) (s e : ISODate) : Event :=
  mkEvent id "closed" s e "Closed Period".

(** Window Jan 29 .. Feb 2, 2026 (five days). *)
Definition winStart : Date := makeUTCDate 2026 0 29.
Definition winEnd : Date := makeUTCDate 2026 1 3.

Definition stay := reservation "r1" (d 2026 1 30) (d 2026 2 1).
Definition block := closed "c1" (d 2026 2 1) (d 2026 2 3).
Definition house := mkProperty "59 Oak Lane" [stay; block].

(** A booking whose arrival and checkout fall on the same day. *)
Definition sameDay := reservation "r1" (d 2026 3 5) (d 2026 3 5).
Definition sameDayHouse := mkProperty "333 Dobie" [sameDay].

(** Back-to-back bookings on Mar 5. *)
Definition turnA := reservation "a" (d 2026 3 1) (d 2026 3 5).
Definition turnB := reservation "b" (d 2026 3 5) (d 2026 3 9).
Definition turnHouse := mkProperty "111 Eagle" [turnA; turnB].

(** A closed period that began on a checkout day before the window and
    runs past its end. *)
Definition earlyStay := reservation "r0" (d 2026 1 20) (d 2026 1 25).
Definition longBlock := closed "c0" (d 2026 1 25) (d 2026 3 1).
Definition blockedHouse := mkProperty "59 Oak Lane" [earlyStay; longBlock].

(** One booking delivered as two events with the same uid. *)
Definition splitA := reservation "a" (d 2026 3 1) (d 2026 3 5).
Definition splitB := reservation "a" (d 2026 3 5) (d 2026 3 9).
Definition splitHouse := mkProperty "111 Eagle" [splitA; splitB].

End Samples.

(* ------------------------------------------------------------------ *)
(** ** The [Date] accessors *)

(** The accessors of [Date.prototype] the program calls, after
    ECMAScript's definitions of the time-value functions. *)
Module DateAPI.

(** [Day(t)] and [TimeWithinDay(t)] *)
Definition Day (t : Date) : Z := t / msPerDay.
Definition TimeWithinDay (t : Date) : Z := t mod msPerDay.

(** [MakeDate(day, time)] *)
Definition MakeDate (day time : Z) : Date := day * msPerDay + time.

(** The year a day number falls in: the largest [y] with
    [DayFromYear y <= day].  A year lasts 146097/400 days on average,
    which puts the estimate within one year of the answer. *)
Definition YearFromDay (day : Z) : Z :=
  let y0 := 1970 + (400 * day) / 146097 in
  if day <? DayFromYear y0 then y0 - 1
  else if DayFromYear (y0 + 1) <=? day then y0 + 1
  else y0.

Definition YearFromTime (t : Date) : Z := YearFromDay (Day t).

Definition DayWithinYear (t : Date) : Z := Day t - DayFromYear (YearFromTime t).

(** [MonthFromTime(t)], 0 = January. *)
Definition MonthFromTime (t : Date) : Z :=
  let d := DayWithinYear t in
  let l := if InLeapYear (YearFromTime t) then 1 else 0 in
  if d <? 31 then 0
  else if d <? 59 + l then 1
  else if d <? 90 + l then 2
  else if d <? 120 + l then 3
  else if d <? 151 + l then 4
  else if d <? 181 + l then 5
  else if d <? 212 + l then 6
  else if d <? 243 + l then 7
  else if d <? 273 + l then 8
  else if d <? 304 + l then 9
  else if d <? 334 + l then 10
  else 11.

(** [DateFromTime(t)], the day of the month, from 1. *)
Definition DateFromTime (t : Date) : Z :=
  let d := DayWithinYear t in
  let l := if InLeapYear (YearFromTime t) then 1 else 0 in
  match MonthFromTime t with
  | 0 => d + 1
  | 1 => d - 30
  | 2 => d - 58 - l
  | 3 => d - 89 - l
  | 4 => d - 119 - l
  | 5 => d - 150 - l
  | 6 => d - 180 - l
  | 7 => d - 211 - l
  | 8 => d - 242 - l
  | 9 => d - 272 - l
  | 10 => d - 303 - l
  | _ => d - 333 - l
  end.

(** [WeekDay(t)], 0 = Sunday; the epoch was a Thursday. *)
Definition WeekDay (t : Date) : Z := (Day t + 4) mod 7.

Definition getUTCFullYear (t : Date) : Z := YearFromTime t.
Definition getUTCMonth (t : Date) : Z := MonthFromTime t.
Definition getUTCDate (t : Date) : Z := DateFromTime t.
Definition getUTCDay (t : Date) : Z := WeekDay t.

(** [d.setUTCDate(dt)] and [d.setUTCMonth(month)], as the new time
    value. *)
Definition setUTCDate (t : Date) (dt : Z) : Date :=
  MakeDate (MakeDay (YearFromTime t) (MonthFromTime t) dt) (TimeWithinDay t).

Definition setUTCMonth (t : Date) (month : Z) : Date :=
  MakeDate (MakeDay (YearFromTime t) month (DateFromTime t)) (TimeWithinDay t).

End DateAPI.
Export DateAPI.

(** [function addDays(dateObj, days)], statement by statement:
    [next.setUTCDate(next.getUTCDate() + days)] on a copy. *)
Definition addDays_setUTCDate (dateObj : Date) (days : Z) : Date :=
  let next := dateObj in
  setUTCDate next (getUTCDate next + days).

(** [function dateToISO(dateObj)]: the first ten characters of
    [toISOString()], which are [YYYY-MM-DD] for the years 0 to 9999. *)
Definition dateToISO (dateObj : Date) : ISODate :=
  mkISO (getUTCFullYear dateObj) (getUTCMonth dateObj + 1) (getUTCDate dateObj).

(** [function startOfWeek(dateObj)] *)
Definition startOfWeek (dateObj : Date) : Date :=
  let day := (getUTCDay dateObj + 6) mod 7 in
  addDays dateObj (- day).

(** [Math.ceil(x / d)] for integers [x] and a positive [d]. *)
Definition Math_ceil_div (x d : Z) : Z := - ((- x) / d).

(** A civil date as a feed writes it: a month from 1 to 12 and a day
    that exists in that month. *)
Definition ValidISO (iso : ISODate) : Prop :=
  1 <= iso_month iso <= 12 /\
  1 <= iso_day iso <= daysInMonth (iso_year iso) (iso_month iso - 1).

(** The loop counter of [for (let i = 0; i < n; i += 1)]. *)
Definition upto (n : Z) : list Z := map Z.of_nat (seq 0 (Z.to_nat n)).

(** The loop counter of [for (let i = a; i < b; i += 1)]. *)
Definition from_to (a b : Z) : list Z := map (fun i => a + i) (upto (b - a)).

#[export] Instance Z_same : SameValueZero Z := Z.eqb.

(* ------------------------------------------------------------------ *)
(** ** The rolling timeline: occupied halves and day cells *)

Module Timeline.

(** One step of the second [property.events.forEach] of
    [renderCalendar], on the set [occupied]. *)
Definition occupied_step (rangeStart rangeEndExclusive : Date)
    (reservationCheckouts : JSSet.t ISODate)
    (occupied : JSSet.t Z) (event : Event) : JSSet.t Z :=
  match computeEventSpan event rangeStart rangeEndExclusive reservationCheckouts with
  | None => occupied
  | Some span =>
      if endHalf span <=? startHalf span then occupied
      else fold_left JSSet.add (from_to (startHalf span) (endHalf span)) occupied
  end.

Definition occupied (property : Property) (rangeStart rangeEndExclusive : Date)
    : JSSet.t Z :=
  fold_left
    (occupied_step rangeStart rangeEndExclusive
       (Rolling.reservationCheckouts (Rolling.collect property)))
    (events property) JSSet.empty.

(** The classes and the grid column of an [availability-cell]. *)
Record Cell := mkCell {
  cell_occupied : bool;
  cell_quick_turn : bool;
  cell_weekend : bool;
  cell_column : Z * Z
}.

(** The body of [for (let day = 0; day < days; day += 1)]. *)
Definition cell (property : Property) (rangeStart rangeEndExclusive : Date)
    (day : Z) : Cell :=
  let occupied := occupied property rangeStart rangeEndExclusive in
  let firstHalf := day * 2 + 1 in
  let secondHalf := firstHalf + 1 in
  let cellDate := addDays rangeStart day in
  let cellISO := dateToISO cellDate in
  let weekday := getUTCDay cellDate in
  mkCell (JSSet.has occupied firstHalf || JSSet.has occupied secondHalf)
         (JSSet.has (Rolling.quickTurns property) cellISO)
         ((weekday =? 0) || (weekday =? 6))
         (firstHalf, firstHalf + 2).

(** The availability layer of a property row, for the global
    [viewStart]. *)
Definition cells (property : Property) (viewStart : Date) : list Cell :=
  let '(rangeStart, rangeEndExclusive) := Rolling.window viewStart in
  map (cell property rangeStart rangeEndExclusive) (upto Rolling.VIEW_DAYS).

(** The [data-date] attributes of the header's day cells. *)
Definition header_dates (viewStart : Date) : list ISODate :=
  let rangeStart := fst (Rolling.window viewStart) in
  map (fun i => dateToISO (addDays rangeStart i)) (upto Rolling.VIEW_DAYS).

End Timeline.

(* ------------------------------------------------------------------ *)
(** ** The month grid *)

Module MonthGrid.

(** The first lines of [renderSingleProperty], from the month start
    that [getSelectedMonthStart] returns. *)
Record Grid := mkGrid {
  monthStart : Date;
  monthEndExclusive : Date;
  gridStart : Date;
  gridEndExclusive : Date;
  totalDays : Z;
  weeks : Z
}.

Definition grid (monthStart : Date) : Grid :=
  let monthEndExclusive :=
    makeUTCDate (getUTCFullYear monthStart) (getUTCMonth monthStart + 1) 1 in
  let gridStart := startOfWeek monthStart in
  let gridEndExclusive := addDays (startOfWeek (addDays monthEndExclusive (-1))) 7 in
  let totalDays := diffDays gridStart gridEndExclusive in
  let weeks := Math_ceil_div totalDays 7 in
  mkGrid monthStart monthEndExclusive gridStart gridEndExclusive totalDays weeks.

(** One step of the second [events.forEach]: the days an event covers
    inside the grid, as date strings. *)
Definition occupied_step (gridStart gridEndExclusive : Date)
    (occupied : JSSet.t ISODate) (event : Event) : JSSet.t ISODate :=
  let startDate := parseDate (start event) in
  let endDate := parseDate (end_ event) in
  if (endDate <=? gridStart) || (startDate >=? gridEndExclusive) then occupied
  else
    let start := if startDate <? gridStart then gridStart else startDate in
    let end_ := if endDate >? gridEndExclusive then gridEndExclusive else endDate in
    fold_left (fun occupied day => JSSet.add occupied (dateToISO (addDays start day)))
              (upto (diffDays start end_)) occupied.

Definition occupied (property : Property) (gridStart gridEndExclusive : Date)
    : JSSet.t ISODate :=
  fold_left (occupied_step gridStart gridEndExclusive) (events property) JSSet.empty.

(** The start of week row [w]. *)
Definition weekStart (g : Grid) (w : Z) : Date := addDays (gridStart g) (w * 7).

(** Whether the cell of [dateObj] gets the class ['outside']:
    [dateObj.getUTCMonth() !== monthStart.getUTCMonth()]. *)
Definition outside (monthStart dateObj : Date) : bool :=
  negb (getUTCMonth dateObj =? getUTCMonth monthStart).

(** The date of cell [d] of week row [w]. *)
Definition cellDate (g : Grid) (w d : Z) : Date := addDays (weekStart g w) d.

End MonthGrid.

(* ------------------------------------------------------------------ *)
(** ** Navigation state *)

Module View.

(** The globals [viewStart], [focusDate] and [pendingScrollToISO];
    [None] is [null]. *)
Record State := mkState {
  viewStart : Date;
  focusDate : option Date;
  pendingScrollToISO : option ISODate
}.

(** [function getSelectedMonthStart()]; [monthSelectValue] is the pair
    read from a non-empty [monthSelect.value], [None] when the control
    is missing or its value is empty. *)
Definition getSelectedMonthStart (monthSelectValue : option (Z * Z)) (st : State)
    : Date :=
  match monthSelectValue with
  | Some (year, month) => makeUTCDate year (month - 1) 1
  | None =>
      match focusDate st with
      | Some focus => makeUTCDate (getUTCFullYear focus) (getUTCMonth focus) 1
      | None =>
          makeUTCDate (getUTCFullYear (viewStart st)) (getUTCMonth (viewStart st)) 1
      end
  end.

(** [function setViewStart(dateObj, scrollToISO, focusOverride)], on the
    globals, up to its call of [renderCalendar]. *)
Definition setViewStart (st : State) (dateObj : Date)
    (scrollToISO : option ISODate) (focusOverride : option Date) : State :=
  let viewStart' :=
    makeUTCDate (getUTCFullYear dateObj) (getUTCMonth dateObj) (getUTCDate dateObj) in
  let focusDate' :=
    match focusOverride with
    | Some focus => focus
    | None => addDays viewStart' 7
    end in
  mkState viewStart' (Some focusDate')
          (match scrollToISO with
           | Some iso => Some iso
           | None => pendingScrollToISO st
           end).

(** [function setFocusDate(dateObj)], on the globals, up to its call of
    [renderCalendar]. *)
Definition setFocusDate (st : State) (dateObj : Date) : State :=
  let clamped := if dateObj <? Rolling.MIN_DATE then Rolling.MIN_DATE else dateObj in
  mkState Rolling.MIN_DATE (Some clamped) (Some (dateToISO clamped)).

(** [function shiftView(days)] when the property filter is ['all']. *)
Definition shiftView_all (st : State) (days : Z) : State :=
  let currentFocus :=
    match focusDate st with Some focus => focus | None => viewStart st end in
  let nextFocus := addDays currentFocus days in
  setFocusDate st nextFocus.

(** [function shiftView(days)] when one property is selected. *)
Definition shiftView_single (monthSelectValue : option (Z * Z)) (st : State)
    (days : Z) : State :=
  let current := getSelectedMonthStart monthSelectValue st in
  let delta := if days >? 0 then 1 else -1 in
  let next := makeUTCDate (getUTCFullYear current) (getUTCMonth current + delta) 1 in
  setViewStart st next (Some (dateToISO next)) (Some next).

(** The globals as [loadData] leaves them before the first render. *)
Definition initial : State :=
  let start := makeUTCDate 2026 0 1 in
  mkState start (Some (addDays start 7)) None.

(** Whether the scroll that [renderCalendar] schedules finds its header
    cell: [scroll.querySelector('.day-cell[data-date=...]')]. *)
Definition scroll_target_found (st : State) : bool :=
  match pendingScrollToISO st with
  | None => false
  | Some target => existsb (same target) (Timeline.header_dates (viewStart st))
  end.

(** The states the controls can bring about: every handler of
    [hookControls] and [shiftView] itself end in [setViewStart] or
    [setFocusDate]. *)
Inductive Reachable : State -> Prop :=
| reach_initial : Reachable initial
| reach_setViewStart st dateObj scrollToISO focusOverride :
    Reachable st -> Reachable (setViewStart st dateObj scrollToISO focusOverride)
| reach_setFocusDate st dateObj :
    Reachable st -> Reachable (setFocusDate st dateObj).

End View.

(* ------------------------------------------------------------------ *)
(** ** Density preference *)

Module Density.

(** [a || b] on strings that may be [null]: the empty string is falsy. *)
Definition or_else (a : option string) (b : option string) : option string :=
  match a with
  | Some s => if String.eqb s "" then b else Some s
  | None => b
  end.

(** [function applyDensity(mode)] with the toggle present: the value
    written to [localStorage] under ['calendarDensity'], given the value
    found there. *)
Definition applyDensity (mode : option string) (item : option string) : string :=
  let stored :=
    match or_else (or_else mode item) (Some "comfortable") with
    | Some s => s
    | None => "comfortable"
    end in
  if String.eqb stored "compact" then "compact" else "comfortable".

(** The click handler of the density toggle. *)
Definition click (item : option string) : string :=
  let current :=
    match or_else item (Some "comfortable") with
    | Some s => s
    | None => "comfortable"
    end in
  let next := if String.eqb current "compact" then "comfortable" else "compact" in
  applyDensity (Some next) item.

End Density.

(* ------------------------------------------------------------------ *)
(** ** The months of the month control *)

(** A [YYYY-MM] string, as its two numbers. *)
#[export] Instance month_same : SameValueZero (Z * Z) :=
  fun a b => (fst a =? fst b) && (snd a =? snd b).

Module MonthOptions.

(** [cursor.toISOString().slice(0, 7)], for the years 0 to 9999. *)
Definition isoMonth (t : Date) : Z * Z := (getUTCFullYear t, getUTCMonth t + 1).

(** The loop [while (cursor <= last) { months.add(...);
    cursor.setUTCMonth(cursor.getUTCMonth() + 1); }] of
    [buildMonthOptions]; [None] when [fuel] rounds do not finish it. *)
Fixpoint loop (fuel : nat) (cursor last : Date) (months : JSSet.t (Z * Z))
    : option (JSSet.t (Z * Z)) :=
  match fuel with
  | O => None
  | S fuel' =>
      if cursor <=? last then
        loop fuel' (setUTCMonth cursor (getUTCMonth cursor + 1)) last
             (JSSet.add months (isoMonth cursor))
      else Some months
  end.

(** The body of [property.events.forEach]. *)
Definition event_step (fuel : nat) (months : option (JSSet.t (Z * Z)))
    (event : Event) : option (JSSet.t (Z * Z)) :=
  match months with
  | None => None
  | Some months =>
      let start := parseDate (start event) in
      let end_ := parseDate (end_ event) in
      let cursor := makeUTCDate (getUTCFullYear start) (getUTCMonth start) 1 in
      let last := makeUTCDate (getUTCFullYear end_) (getUTCMonth end_) 1 in
      loop fuel cursor last months
  end.

(** The set [months] of [buildMonthOptions], whose sorted elements
    become the options of the month control. *)
Definition months (fuel : nat) (properties : list Property)
    : option (JSSet.t (Z * Z)) :=
  fold_left (fun acc property => fold_left (event_step fuel) (events property) acc)
            properties (Some JSSet.empty).

(** The number of a month counted from year 0, and the midnight that
    starts the month with a given number. *)
Definition monthIndex (t : Date) : Z := 12 * getUTCFullYear t + getUTCMonth t.
Definition monthStartAt (i : Z) : Date := MakeDay 0 i 1 * msPerDay.

(** The years of an event's dates are four-digit years from 100 on, and
    the loop has rounds enough for the months the event spans. *)
Definition event_in_range (fuel : nat) (event : Event) : Prop :=
  100 <= getUTCFullYear (parseDate (start event)) <= 9999 /\
  100 <= getUTCFullYear (parseDate (end_ event)) <= 9999 /\
  (Z.to_nat (monthIndex (parseDate (end_ event))
             - monthIndex (parseDate (start event)) + 1) < fuel)%nat.

End MonthOptions.

(* ------------------------------------------------------------------ *)
(** ** More sample data *)

Module Spanning.

(** A stay checking out on Jan 25, 2027, and a closed period from that
    day into 2028. *)
Definition lateStay :=
  Samples.reservation "r7" (Samples.d 2027 1 20) (Samples.d 2027 1 25).
Definition lateBlock :=
  Samples.closed "c7" (Samples.d 2027 1 25) (Samples.d 2028 3 1).
Definition lateHouse := mkProperty "59 Oak Lane" [lateStay; lateBlock].

(** A reservation with the dates of [Samples.longBlock]. *)
Definition longStay :=
  Samples.reservation "r5" (Samples.d 2026 1 25) (Samples.d 2026 3 1).

End Spanning.

(* ------------------------------------------------------------------ *)
(** * Properties *)

(** ** Rounding to whole days *)

Section Rounding.

Lemma msPerDay_pos : 0 < msPerDay.
Proof. reflexivity. Qed.

Lemma round_add_days (x k : Z) :
  Math_round_div (x + k * msPerDay) msPerDay = Math_round_div x msPerDay + k.
Proof.
  unfold Math_round_div.
  replace (2 * (x + k * msPerDay) + msPerDay)
    with (2 * x + msPerDay + k * (2 * msPerDay)) by ring.
  apply Z.div_add. pose proof msPerDay_pos. lia.
Qed.

Lemma round_days (k : Z) : Math_round_div (k * msPerDay) msPerDay = k.
Proof.
  change (k * msPerDay) with (0 + k * msPerDay) at 1.
  rewrite round_add_days. reflexivity.
Qed.

Lemma round_mono (x y : Z) :
  x <= y -> Math_round_div x msPerDay <= Math_round_div y msPerDay.
Proof.
  intros Hxy. unfold Math_round_div.
  apply Z.div_le_mono; pose proof msPerDay_pos; lia.
Qed.

Lemma round_nonneg (x : Z) : 0 <= x -> 0 <= Math_round_div x msPerDay.
Proof.
  intros Hx. unfold Math_round_div.
  apply Z.div_pos; pose proof msPerDay_pos; lia.
Qed.

(** Two times on the same phase of the day (for instance both at
    midnight) that differ are at least one day apart. *)
Lemma round_lt_same_phase (x y : Z) :
  x < y -> (y - x) mod msPerDay = 0 ->
  Math_round_div x msPerDay + 1 <= Math_round_div y msPerDay.
Proof.
  intros Hlt Hmod.
  apply Z.mod_divide in Hmod; [|discriminate].
  destruct Hmod as [k Hk].
  assert (1 <= k) by (pose proof msPerDay_pos; nia).
  replace y with (x + k * msPerDay) by lia.
  rewrite round_add_days. lia.
Qed.

End Rounding.

(** ** The calendar behind [Date.UTC] *)

Section CalendarFacts.

Lemma DayFromYear_succ (y : Z) :
  DayFromYear (y + 1) = DayFromYear y + 365 + (if InLeapYear y then 1 else 0).
Proof.
  unfold DayFromYear, InLeapYear.
  destruct (Z.eqb_spec (y mod 4) 0), (Z.eqb_spec (y mod 100) 0),
    (Z.eqb_spec (y mod 400) 0); cbn [andb orb negb];
    Z.div_mod_to_equations; lia.
Qed.

Lemma MakeDay_date (year month date : Z) :
  MakeDay year month date = MakeDay year month 1 + (date - 1).
Proof. unfold MakeDay. lia. Qed.

(** The day numbers of the same day-of-month in two successive months
    differ by the length of the first month. *)
Lemma MakeDay_next_month (year month date : Z) :
  MakeDay year (month + 1) date =
  MakeDay year month date + daysInMonth (year + month / 12) (month mod 12).
Proof.
  unfold MakeDay.
  pose proof (Z.mod_pos_bound month 12 eq_refl) as Hr.
  pose proof (Z.div_mod month 12 ltac:(discriminate)) as Hm.
  destruct (Z.eq_dec (month mod 12) 11) as [H11 | Hn11].
  - assert (Hq : (month + 1) / 12 = month / 12 + 1)
      by (Z.div_mod_to_equations; lia).
    assert (Hr' : (month + 1) mod 12 = 0)
      by (Z.div_mod_to_equations; lia).
    rewrite Hq, Hr', H11, Z.add_assoc, DayFromYear_succ.
    cbn [DayOfMonthStart daysInMonth].
    destruct (InLeapYear (year + month / 12)), (InLeapYear (year + month / 12 + 1));
      lia.
  - assert (Hq : (month + 1) / 12 = month / 12)
      by (Z.div_mod_to_equations; lia).
    assert (Hr' : (month + 1) mod 12 = month mod 12 + 1)
      by (Z.div_mod_to_equations; lia).
    rewrite Hq, Hr'.
    generalize dependent (month mod 12). intros r Hr _ Hn11 _.
    assert (Hcases : r = 0 \/ r = 1 \/ r = 2 \/ r = 3 \/ r = 4 \/ r = 5 \/
                     r = 6 \/ r = 7 \/ r = 8 \/ r = 9 \/ r = 10) by lia.
    repeat (destruct Hcases as [Hcases | Hcases]); subst r;
      cbn [DayOfMonthStart daysInMonth Z.add Pos.add Pos.succ];
      destruct (InLeapYear (year + month / 12)); lia.
Qed.

Lemma makeUTCDate_next_month (year month day : Z) :
  makeUTCDate year (month + 1) day =
  addDays (makeUTCDate year month day)
          (daysInMonth (MakeFullYear year + month / 12) (month mod 12)).
Proof.
  unfold makeUTCDate, Date_UTC, addDays.
  rewrite MakeDay_next_month. apply Z.mul_add_distr_r.
Qed.

Lemma makeUTCDate_aligned (year month day : Z) :
  day_aligned (makeUTCDate year month day).
Proof.
  unfold day_aligned, makeUTCDate, Date_UTC. apply Z.mod_mul. discriminate.
Qed.

Lemma parseDate_aligned (value : ISODate) : day_aligned (parseDate value).
Proof. apply makeUTCDate_aligned. Qed.

Lemma aligned_diff (a b : Date) :
  day_aligned a -> day_aligned b -> (a - b) mod msPerDay = 0.
Proof.
  unfold day_aligned. intros Ha Hb.
  rewrite Zminus_mod, Ha, Hb. reflexivity.
Qed.

End CalendarFacts.

(** ** [halfIndex] *)

Section HalfIndex.

Lemma halfIndex_diffDays (dateObj rangeStart : Date) (half : string) :
  halfIndex dateObj rangeStart half =
  diffDays rangeStart dateObj * 2 + (if String.eqb half "pm" then 2 else 1).
Proof. reflexivity. Qed.

Lemma halfIndex_pm (dateObj rangeStart : Date) :
  halfIndex dateObj rangeStart "pm" = diffDays rangeStart dateObj * 2 + 2.
Proof. reflexivity. Qed.

Lemma halfIndex_am (dateObj rangeStart : Date) :
  halfIndex dateObj rangeStart "am" = diffDays rangeStart dateObj * 2 + 1.
Proof. reflexivity. Qed.

Lemma halfIndex_self_am (rangeStart : Date) :
  halfIndex rangeStart rangeStart "am" = 1.
Proof.
  rewrite halfIndex_am. unfold diffDays.
  rewrite Z.sub_diag. reflexivity.
Qed.

Lemma diffDays_addDays (a b : Date) (k : Z) :
  diffDays (addDays a k) (addDays b k) = diffDays a b.
Proof.
  unfold diffDays, addDays. f_equal. lia.
Qed.

Lemma diffDays_shift_start (a b : Date) (n : Z) :
  diffDays (addDays a n) b = diffDays a b - n.
Proof.
  unfold diffDays, addDays.
  replace (b - (a + n * msPerDay)) with (b - a + (- n) * msPerDay) by lia.
  rewrite round_add_days. lia.
Qed.

Lemma diffDays_addDays_r (a : Date) (n : Z) : diffDays a (addDays a n) = n.
Proof.
  unfold diffDays, addDays.
  replace (a + n * msPerDay - a) with (n * msPerDay) by lia.
  apply round_days.
Qed.

(** C2. [halfIndex] is the whole-day difference between the date and the
    window start, doubled, plus 2 for the afternoon and 1 for the
    morning.  Hence moving the date and the window start by the same
    number [k] of days leaves the index unchanged, and moving the window
    start from a day of one month to the same day of the next month
    lowers every index by twice the length of the first month, whatever
    the day of the month. *)
Theorem halfIndex_elapsed_days :
  (forall dateObj rangeStart,
      halfIndex dateObj rangeStart "pm" = diffDays rangeStart dateObj * 2 + 2 /\
      halfIndex dateObj rangeStart "am" = diffDays rangeStart dateObj * 2 + 1) /\
  (forall dateObj rangeStart half k,
      halfIndex (addDays dateObj k) (addDays rangeStart k) half =
      halfIndex dateObj rangeStart half) /\
  (forall year month day dateObj half,
      halfIndex dateObj (makeUTCDate year (month + 1) day) half =
      halfIndex dateObj (makeUTCDate year month day) half
      - daysInMonth (MakeFullYear year + month / 12) (month mod 12) * 2).
Proof.
  split; [| split].
  - intros dateObj rangeStart. split; reflexivity.
  - intros dateObj rangeStart half k.
    rewrite !halfIndex_diffDays, diffDays_addDays. reflexivity.
  - intros year month day dateObj half.
    rewrite makeUTCDate_next_month, !halfIndex_diffDays, diffDays_shift_start.
    lia.
Qed.

End HalfIndex.

(** ** [computeEventSpan] *)

(** Case analysis on the comparisons of time values in the goal. *)
Ltac date_cases :=
  rewrite ?Z.geb_leb, ?Z.gtb_ltb;
  repeat match goal with
    | |- context [Z.leb ?a ?b] => destruct (Z.leb_spec a b)
    | |- context [Z.ltb ?a ?b] => destruct (Z.ltb_spec a b)
    end;
  cbn [orb andb negb].

Section Projection.

Implicit Types (event : Event) (rangeStart rangeEndExclusive : Date).
Implicit Types (reservationCheckouts : JSSet.t ISODate) (span : Span).

Lemma isClosed_type event : isClosed event = true <-> type event = "closed".
Proof. apply String.eqb_eq. Qed.

Lemma isClosed_reservation event :
  type event = "reservation" -> isClosed event = false.
Proof. unfold isClosed. intros ->. reflexivity. Qed.

(** Successive midnights: an event that ends after it starts ends at
    least one whole day later, seen from any window start. *)
Lemma diffDays_parse_lt (a b : ISODate) rangeStart :
  parseDate a < parseDate b ->
  diffDays rangeStart (parseDate a) + 1 <= diffDays rangeStart (parseDate b).
Proof.
  intros Hlt. unfold diffDays. apply round_lt_same_phase; [lia|].
  replace (parseDate b - rangeStart - (parseDate a - rangeStart))
    with (parseDate b - parseDate a) by lia.
  apply aligned_diff; apply parseDate_aligned.
Qed.

Lemma diffDays_aligned_lt (a b : Date) rangeStart :
  day_aligned a -> day_aligned b -> a < b ->
  diffDays rangeStart a + 1 <= diffDays rangeStart b.
Proof.
  intros Ha Hb Hlt. unfold diffDays. apply round_lt_same_phase; [lia|].
  replace (b - rangeStart - (a - rangeStart)) with (b - a) by lia.
  now apply aligned_diff.
Qed.

Lemma diffDays_mono (a b : Date) rangeStart :
  a <= b -> diffDays rangeStart a <= diffDays rangeStart b.
Proof. intros Hab. unfold diffDays. apply round_mono. lia. Qed.

Lemma diffDays_nonneg (a : Date) rangeStart :
  rangeStart <= a -> 0 <= diffDays rangeStart a.
Proof. intros Ha. unfold diffDays. apply round_nonneg. lia. Qed.

Lemma diffDays_self (a : Date) : diffDays a a = 0.
Proof. unfold diffDays. rewrite Z.sub_diag. reflexivity. Qed.

(** C8. [computeEventSpan] returns [null] exactly when the event ends at
    or before the window start or starts at or after the window end; and
    for such an event nothing is drawn either. *)
Theorem no_overlap_iff_none event rangeStart rangeEndExclusive reservationCheckouts :
  (computeEventSpan event rangeStart rangeEndExclusive reservationCheckouts = None
   <-> parseDate (end_ event) <= rangeStart \/
       parseDate (start event) >= rangeEndExclusive) /\
  (parseDate (end_ event) <= rangeStart \/
   parseDate (start event) >= rangeEndExclusive ->
   project event rangeStart rangeEndExclusive reservationCheckouts = None).
Proof.
  assert (Hiff :
    computeEventSpan event rangeStart rangeEndExclusive reservationCheckouts = None
    <-> parseDate (end_ event) <= rangeStart \/
        parseDate (start event) >= rangeEndExclusive).
  { unfold computeEventSpan.
    destruct (Z.leb_spec (parseDate (end_ event)) rangeStart) as [Hend | Hend];
      cbn [orb]; [split; [left; exact Hend | reflexivity] |].
    rewrite Z.geb_leb.
    destruct (Z.leb_spec rangeEndExclusive (parseDate (start event)))
      as [Hstart | Hstart];
      [split; [right; lia | reflexivity] |].
    destruct (isClosed event); (split; [discriminate | lia]). }
  split; [exact Hiff |].
  intros Hout. unfold project.
  apply Hiff in Hout. rewrite Hout. reflexivity.
Qed.

Lemma no_overlap_iff_none_witness :
  project Samples.earlyStay Samples.winStart Samples.winEnd [] = None.
Proof.
  apply (proj2 (no_overlap_iff_none Samples.earlyStay Samples.winStart
                  Samples.winEnd [])).
  left. vm_compute. discriminate.
Defined.

(** C1. A reservation that starts on or after the window start and
    checks out before the window end, with arrival before checkout, is
    projected from the afternoon slot of its arrival day up to and
    including the morning slot of its checkout day, and is drawn so. *)
Theorem reservation_inside_window event rangeStart rangeEndExclusive
    reservationCheckouts :
  type event = "reservation" ->
  rangeStart <= parseDate (start event) ->
  parseDate (end_ event) < rangeEndExclusive ->
  parseDate (start event) < parseDate (end_ event) ->
  let span := mkSpan (halfIndex (parseDate (start event)) rangeStart "pm")
                     (halfIndex (parseDate (end_ event)) rangeStart "am" + 1) in
  computeEventSpan event rangeStart rangeEndExclusive reservationCheckouts
    = Some span /\
  project event rangeStart rangeEndExclusive reservationCheckouts = Some span.
Proof.
  intros Hty Hs He Hse span.
  assert (Hspan :
    computeEventSpan event rangeStart rangeEndExclusive reservationCheckouts
    = Some span).
  { unfold computeEventSpan. rewrite (isClosed_reservation _ Hty).
    date_cases; try lia. reflexivity. }
  split; [exact Hspan |].
  unfold project. rewrite Hspan. subst span. cbn [startHalf endHalf].
  rewrite halfIndex_pm, halfIndex_am.
  pose proof (diffDays_parse_lt _ _ rangeStart Hse).
  date_cases; [lia | reflexivity].
Qed.

Lemma reservation_inside_window_witness :
  computeEventSpan Samples.stay Samples.winStart Samples.winEnd [] =
    Some (mkSpan 4 8) /\
  project Samples.stay Samples.winStart Samples.winEnd [] = Some (mkSpan 4 8).
Proof.
  apply (reservation_inside_window Samples.stay Samples.winStart Samples.winEnd []).
  - reflexivity.
  - vm_compute. discriminate.
  - vm_compute. reflexivity.
  - vm_compute. reflexivity.
Defined.

(** C4. An event that overlaps the window and ends at or after the
    window end has its end half at [totalHalves + 1], however far past
    the window end it runs; the interval drawn for it ends there too. *)
Theorem end_clamped_to_window event rangeStart rangeEndExclusive
    reservationCheckouts :
  rangeStart < parseDate (end_ event) ->
  parseDate (start event) < rangeEndExclusive ->
  rangeEndExclusive <= parseDate (end_ event) ->
  (exists span,
      computeEventSpan event rangeStart rangeEndExclusive reservationCheckouts
        = Some span /\
      endHalf span = totalHalves rangeStart rangeEndExclusive + 1) /\
  (forall span,
      project event rangeStart rangeEndExclusive reservationCheckouts = Some span ->
      endHalf span = totalHalves rangeStart rangeEndExclusive + 1).
Proof.
  intros Hend Hstart Hpast.
  assert (Hspan : exists span,
      computeEventSpan event rangeStart rangeEndExclusive reservationCheckouts
        = Some span /\
      endHalf span = totalHalves rangeStart rangeEndExclusive + 1).
  { unfold computeEventSpan, totalHalves, diffDays.
    destruct (isClosed event); date_cases; try lia;
      eexists; (split; [reflexivity | reflexivity]). }
  split; [exact Hspan |].
  destruct Hspan as (span0 & Hspan0 & Hend0).
  intros span. unfold project. rewrite Hspan0.
  destruct (endHalf span0 <=? startHalf span0); [discriminate |].
  intros [= <-]. exact Hend0.
Qed.

Lemma end_clamped_to_window_witness :
  (exists span,
      computeEventSpan Samples.longBlock Samples.winStart Samples.winEnd []
        = Some span /\
      endHalf span = totalHalves Samples.winStart Samples.winEnd + 1) /\
  (forall span,
      project Samples.longBlock Samples.winStart Samples.winEnd [] = Some span ->
      endHalf span = totalHalves Samples.winStart Samples.winEnd + 1).
Proof.
  apply (end_clamped_to_window Samples.longBlock Samples.winStart Samples.winEnd []).
  - vm_compute. reflexivity.
  - vm_compute. reflexivity.
  - vm_compute. discriminate.
Defined.

(** Where the full window is reached.  An event that starts before the
    window start and ends at or after the window end fills the whole
    window, [1] to [totalHalves + 1], when it is not a closed period, and
    when it is a closed period whose start is not among the checkout
    dates; in a window bounded by midnights that interval is drawn. *)
Theorem spanning_event_fills_window event rangeStart rangeEndExclusive
    reservationCheckouts :
  rangeStart < rangeEndExclusive ->
  parseDate (start event) < rangeStart ->
  rangeEndExclusive <= parseDate (end_ event) ->
  isClosed event = false \/
    JSSet.has reservationCheckouts (start event) = false ->
  let full := mkSpan (halfIndex rangeStart rangeStart "am")
                     (totalHalves rangeStart rangeEndExclusive + 1) in
  halfIndex rangeStart rangeStart "am" = 1 /\
  computeEventSpan event rangeStart rangeEndExclusive reservationCheckouts
    = Some full /\
  (day_aligned rangeStart -> day_aligned rangeEndExclusive ->
   project event rangeStart rangeEndExclusive reservationCheckouts = Some full).
Proof.
  intros Hwin Hstart Hend Hkind full.
  assert (Hspan :
    computeEventSpan event rangeStart rangeEndExclusive reservationCheckouts
    = Some full).
  { subst full. unfold computeEventSpan, totalHalves, diffDays.
    destruct (isClosed event) eqn:Hclosed.
    - destruct Hkind as [Hk | Hk]; [discriminate |]. rewrite Hk.
      date_cases; try lia. reflexivity.
    - date_cases; try lia. reflexivity. }
  split; [apply halfIndex_self_am | split; [exact Hspan |]].
  intros Hrs Hre. unfold project. rewrite Hspan. subst full.
  cbn [startHalf endHalf]. rewrite halfIndex_self_am. unfold totalHalves.
  pose proof (diffDays_aligned_lt _ _ rangeStart Hrs Hre Hwin) as Hdays.
  rewrite diffDays_self in Hdays.
  date_cases; [lia | reflexivity].
Qed.

Lemma spanning_event_fills_window_witness :
  halfIndex Samples.winStart Samples.winStart "am" = 1 /\
  computeEventSpan Samples.longBlock Samples.winStart Samples.winEnd []
    = Some (mkSpan (halfIndex Samples.winStart Samples.winStart "am")
                   (totalHalves Samples.winStart Samples.winEnd + 1)) /\
  (day_aligned Samples.winStart -> day_aligned Samples.winEnd ->
   project Samples.longBlock Samples.winStart Samples.winEnd []
    = Some (mkSpan (halfIndex Samples.winStart Samples.winStart "am")
                   (totalHalves Samples.winStart Samples.winEnd + 1))).
Proof.
  apply (spanning_event_fills_window Samples.longBlock Samples.winStart
           Samples.winEnd []).
  - vm_compute. reflexivity.
  - vm_compute. reflexivity.
  - vm_compute. discriminate.
  - right. reflexivity.
Defined.

(** The remaining case does not reach it: a closed period that began,
    before the window, on a checkout date, and runs past the window end,
    is projected from slot 2, the afternoon of the first visible day. *)
Lemma spanning_closed_on_checkout_starts_pm :
  ~ (forall event rangeStart rangeEndExclusive reservationCheckouts,
        rangeStart < rangeEndExclusive ->
        parseDate (start event) < rangeStart ->
        rangeEndExclusive <= parseDate (end_ event) ->
        computeEventSpan event rangeStart rangeEndExclusive reservationCheckouts
          = Some (mkSpan 1 (totalHalves rangeStart rangeEndExclusive + 1))).
Proof.
  intros Hclaim.
  specialize (Hclaim Samples.longBlock Samples.winStart Samples.winEnd
                (Rolling.reservationCheckouts (Rolling.collect Samples.blockedHouse))).
  assert (Hcode :
    computeEventSpan Samples.longBlock Samples.winStart Samples.winEnd
      (Rolling.reservationCheckouts (Rolling.collect Samples.blockedHouse))
    = Some (mkSpan 2 11)) by (vm_compute; reflexivity).
  rewrite Hcode in Hclaim.
  assert (Hs : parseDate (start Samples.longBlock) < Samples.winStart)
    by (vm_compute; reflexivity).
  assert (He : Samples.winEnd <= parseDate (end_ Samples.longBlock))
    by (vm_compute; discriminate).
  assert (Hw : Samples.winStart < Samples.winEnd) by (vm_compute; reflexivity).
  specialize (Hclaim Hw Hs He). discriminate Hclaim.
Qed.

(** C5 on the code.  A closed period that began on a checkout date
    before the window and runs to its end or beyond does not fill the
    window: it is projected from slot 2, not from slot 1.
    - Month view of February 2026, week row of Monday Feb 2, closed
      period Jan 25 to Mar 1 after a stay that checked out on Jan 25:
      the pill covers columns 2 to 15, both by [computeEventSpan] and by
      the inline copy in [renderSingleProperty], where the full window
      is 1 to 15; the same renderer marks that Monday occupied, and a
      reservation with the same dates is projected from slot 1.
    - Rolling view with the view start on Feb 1, 2027, closed period
      Jan 25, 2027 to Mar 1, 2028 after a stay that checked out on
      Jan 25: the interval is 2 to 731, the full window 1 to 731. *)
Theorem spanning_closed_on_checkout_slot2 :
  let g := MonthGrid.grid (makeUTCDate 2026 1 1) in
  let weekStart := MonthGrid.weekStart g 1 in
  let weekEnd := addDays weekStart 7 in
  let checkouts :=
    Rolling.reservationCheckouts (Rolling.collect Samples.blockedHouse) in
  let rangeStart := fst (Rolling.window (makeUTCDate 2027 1 1)) in
  let rangeEndExclusive := snd (Rolling.window (makeUTCDate 2027 1 1)) in
  (dateToISO weekStart = mkISO 2026 2 2 /\
   parseDate (start Samples.longBlock) < weekStart /\
   weekEnd <= parseDate (end_ Samples.longBlock) /\
   JSSet.has checkouts (start Samples.longBlock) = true /\
   computeEventSpan Samples.longBlock weekStart weekEnd checkouts
     = Some (mkSpan 2 15) /\
   weekPill Samples.longBlock weekStart
            (Month.reservationCheckouts Samples.blockedHouse)
     = Some (mkSpan 2 15) /\
   mkSpan (halfIndex weekStart weekStart "am") (totalHalves weekStart weekEnd + 1)
     = mkSpan 1 15 /\
   JSSet.has (MonthGrid.occupied Samples.blockedHouse (MonthGrid.gridStart g)
                (MonthGrid.gridEndExclusive g))
             (dateToISO weekStart) = true /\
   computeEventSpan Spanning.longStay weekStart weekEnd checkouts
     = Some (mkSpan 1 15)) /\
  (dateToISO rangeStart = mkISO 2027 2 1 /\
   parseDate (start Spanning.lateBlock) < rangeStart /\
   rangeEndExclusive <= parseDate (end_ Spanning.lateBlock) /\
   computeEventSpan Spanning.lateBlock rangeStart rangeEndExclusive
     (Rolling.reservationCheckouts (Rolling.collect Spanning.lateHouse))
     = Some (mkSpan 2 731) /\
   mkSpan (halfIndex rangeStart rangeStart "am")
          (totalHalves rangeStart rangeEndExclusive + 1)
     = mkSpan 1 731).
Proof.
  cbn zeta. split.
  - repeat split; try (vm_compute; reflexivity).
    vm_compute. discriminate.
  - repeat split; try (vm_compute; reflexivity).
    vm_compute. discriminate.
Qed.

(** C7. When [computeEventSpan] yields an end half at or below the start
    half, nothing is drawn; an interval that is drawn, by either
    renderer, always has its start half strictly below its end half. *)
Theorem degenerate_span_dropped event rangeStart rangeEndExclusive
    reservationCheckouts :
  (forall span,
      computeEventSpan event rangeStart rangeEndExclusive reservationCheckouts
        = Some span ->
      endHalf span <= startHalf span ->
      project event rangeStart rangeEndExclusive reservationCheckouts = None) /\
  (forall span,
      project event rangeStart rangeEndExclusive reservationCheckouts = Some span ->
      startHalf span < endHalf span) /\
  (forall span,
      weekPill event rangeStart reservationCheckouts = Some span ->
      startHalf span < endHalf span).
Proof.
  split; [| split]; intros span.
  - unfold project. intros -> Hle.
    destruct (Z.leb_spec (endHalf span) (startHalf span)); [reflexivity | lia].
  - unfold project.
    destruct (computeEventSpan _ _ _ _) as [span0 |]; [| discriminate].
    destruct (Z.leb_spec (endHalf span0) (startHalf span0)); [discriminate |].
    intros [= <-]. assumption.
  - unfold weekPill.
    destruct (_ || _); [discriminate |].
    destruct (_ <=? _); [discriminate |].
    destruct (if isClosed event then _ else _) as [colStart colEnd].
    destruct (Z.leb_spec colEnd colStart); [discriminate |].
    intros [= <-]. cbn [startHalf endHalf]. lia.
Qed.

Lemma degenerate_span_dropped_witness :
  project (Samples.closed "z" (Samples.d 2026 1 30) (Samples.d 2026 1 30))
          Samples.winStart Samples.winEnd [] = None.
Proof.
  apply (proj1 (degenerate_span_dropped
                  (Samples.closed "z" (Samples.d 2026 1 30) (Samples.d 2026 1 30))
                  Samples.winStart Samples.winEnd [])
               (mkSpan 3 3)).
  - vm_compute. reflexivity.
  - vm_compute. discriminate.
Defined.

(** C9. An event whose type is neither ['reservation'] nor ['closed'] is
    projected, and drawn, as the same event with type ['reservation']. *)
Theorem unknown_type_as_reservation event rangeStart rangeEndExclusive
    reservationCheckouts :
  type event <> "reservation" ->
  type event <> "closed" ->
  let asReservation :=
    mkEvent (uid event) "reservation" (start event) (end_ event) (summary event) in
  computeEventSpan event rangeStart rangeEndExclusive reservationCheckouts =
    computeEventSpan asReservation rangeStart rangeEndExclusive reservationCheckouts /\
  project event rangeStart rangeEndExclusive reservationCheckouts =
    project asReservation rangeStart rangeEndExclusive reservationCheckouts.
Proof.
  intros _ Hnc asReservation.
  assert (Hclosed : isClosed event = false).
  { destruct (isClosed event) eqn:E; [| reflexivity].
    apply isClosed_type in E. contradiction. }
  assert (Hspan :
    computeEventSpan event rangeStart rangeEndExclusive reservationCheckouts =
    computeEventSpan asReservation rangeStart rangeEndExclusive reservationCheckouts).
  { unfold computeEventSpan. rewrite Hclosed. reflexivity. }
  split; [exact Hspan |].
  unfold project. rewrite Hspan. reflexivity.
Qed.

Lemma unknown_type_as_reservation_witness :
  let event := mkEvent "x1" "tentative" (Samples.d 2026 1 30) (Samples.d 2026 2 1) "" in
  let asReservation :=
    mkEvent "x1" "reservation" (Samples.d 2026 1 30) (Samples.d 2026 2 1) "" in
  computeEventSpan event Samples.winStart Samples.winEnd [] =
    computeEventSpan asReservation Samples.winStart Samples.winEnd [] /\
  project event Samples.winStart Samples.winEnd [] =
    project asReservation Samples.winStart Samples.winEnd [].
Proof.
  intros event asReservation.
  apply (unknown_type_as_reservation event Samples.winStart Samples.winEnd []).
  - discriminate.
  - discriminate.
Defined.

(** An event date that lies before a window end on a midnight lies at
    least a day before it, which keeps the end half inside the window. *)
Lemma computeEventSpan_bounds event rangeStart rangeEndExclusive
    reservationCheckouts span :
  day_aligned rangeEndExclusive ->
  computeEventSpan event rangeStart rangeEndExclusive reservationCheckouts
    = Some span ->
  1 <= startHalf span /\
  endHalf span <= totalHalves rangeStart rangeEndExclusive + 1.
Proof.
  intros Haligned. unfold computeEventSpan, totalHalves.
  fold (diffDays rangeStart rangeEndExclusive).
  pose proof (diffDays_self rangeStart) as Hself.
  pose proof (diffDays_nonneg (parseDate (start event)) rangeStart) as Hnn.
  pose proof (diffDays_aligned_lt (parseDate (end_ event)) rangeEndExclusive
                rangeStart (parseDate_aligned _) Haligned) as Hlt.
  destruct (isClosed event), (JSSet.has reservationCheckouts (start event));
    date_cases; try discriminate;
    intros [= <-]; cbn [startHalf endHalf];
    rewrite ?halfIndex_pm, ?halfIndex_am; lia.
Qed.

(** C10. Whatever interval [computeEventSpan] returns for a window that
    ends on a midnight lies within the half-day slots of the window:
    the start half is at least 1 and the end half at most
    [totalHalves + 1]. *)
Theorem span_within_window event rangeStart rangeEndExclusive
    reservationCheckouts span :
  rangeStart < rangeEndExclusive ->
  day_aligned rangeEndExclusive ->
  computeEventSpan event rangeStart rangeEndExclusive reservationCheckouts
    = Some span ->
  1 <= startHalf span /\
  endHalf span <= totalHalves rangeStart rangeEndExclusive + 1.
Proof.
  intros _. apply computeEventSpan_bounds.
Qed.

Lemma span_within_window_witness :
  1 <= startHalf (mkSpan 4 8) /\
  endHalf (mkSpan 4 8) <= totalHalves Samples.winStart Samples.winEnd + 1.
Proof.
  apply (span_within_window Samples.stay Samples.winStart Samples.winEnd []).
  - vm_compute. reflexivity.
  - vm_compute. reflexivity.
  - vm_compute. reflexivity.
Defined.

End Projection.

(** ** [Set] and [Map] *)

#[export] Instance string_same_laws : SameValueZeroLaws string.
Proof. intros a b. apply String.eqb_eq. Qed.

#[export] Instance ISODate_same_laws : SameValueZeroLaws ISODate.
Proof.
  intros [y1 m1 d1] [y2 m2 d2]. unfold same, ISODate_same, ISODate_eqb.
  cbn [iso_year iso_month iso_day].
  rewrite !andb_true_iff, !Z.eqb_eq. split.
  - intros [[-> ->] ->]. reflexivity.
  - intros [= -> -> ->]. auto.
Qed.

Section SetFacts.

Context {K : Type} `{SameValueZeroLaws K}.
Implicit Types (s : JSSet.t K) (k x : K).

Lemma same_refl k : same k k = true.
Proof. now apply same_eq. Qed.

Lemma has_In s k : JSSet.has s k = true <-> In k s.
Proof.
  unfold JSSet.has. rewrite existsb_exists. split.
  - intros (y & Hy & Hsame). apply same_eq in Hsame. now subst.
  - intros Hin. exists k. split; [assumption | apply same_refl].
Qed.

Lemma has_false s k : JSSet.has s k = false <-> ~ In k s.
Proof.
  rewrite <- has_In. destruct (JSSet.has s k); split; congruence.
Qed.

Lemma In_add s k x : In x (JSSet.add s k) <-> In x s \/ x = k.
Proof.
  unfold JSSet.add. destruct (JSSet.has s k) eqn:Hhas.
  - apply has_In in Hhas. split; [auto |]. intros [? | ->]; assumption.
  - rewrite in_app_iff. cbn. intuition congruence.
Qed.

Lemma NoDup_add s k : NoDup s -> NoDup (JSSet.add s k).
Proof.
  intros Hnd. unfold JSSet.add. destruct (JSSet.has s k) eqn:Hhas; [assumption |].
  apply has_false in Hhas.
  apply NoDup_app; [assumption | repeat constructor; intros [] | ].
  intros a Ha [<- | []]. contradiction.
Qed.

Lemma In_fold_add (l : list K) s x :
  In x (fold_left JSSet.add l s) <-> In x s \/ In x l.
Proof.
  revert s. induction l as [| k l IH]; intros s; cbn [fold_left].
  - cbn. tauto.
  - rewrite IH, In_add. cbn. intuition congruence.
Qed.

Lemma In_of_list (l : list K) x : In x (JSSet.of_list l) <-> In x l.
Proof.
  unfold JSSet.of_list. rewrite In_fold_add. cbn. tauto.
Qed.

End SetFacts.

Section MapFacts.

Context {K V : Type} `{SameValueZeroLaws K}.
Implicit Types (m : JSMap.t K V) (k : K) (v : V).

Lemma get_set m k v k' :
  JSMap.get (JSMap.set m k v) k' = if same k' k then Some v else JSMap.get m k'.
Proof.
  induction m as [| [k0 v0] m IH]; cbn [JSMap.set JSMap.get].
  - reflexivity.
  - destruct (same k k0) eqn:Hk; cbn [JSMap.get].
    + apply same_eq in Hk. subst k0.
      destruct (same k' k); reflexivity.
    + destruct (same k' k0) eqn:Hk'.
      * apply same_eq in Hk'. subst k0.
        destruct (same k' k) eqn:Hk'; [| reflexivity].
        apply same_eq in Hk'. subst k'.
        rewrite same_refl in Hk. discriminate.
      * exact IH.
Qed.

Lemma keys_set m k v x :
  In x (JSMap.keys (JSMap.set m k v)) <-> In x (JSMap.keys m) \/ x = k.
Proof.
  unfold JSMap.keys.
  induction m as [| [k0 v0] m IH]; cbn [JSMap.set map fst In].
  - intuition congruence.
  - destruct (same k k0) eqn:Hk; cbn [map fst In].
    + apply same_eq in Hk. subst k0. intuition congruence.
    + rewrite IH. tauto.
Qed.

Lemma NoDup_keys_set m k v :
  NoDup (JSMap.keys m) -> NoDup (JSMap.keys (JSMap.set m k v)).
Proof.
  unfold JSMap.keys.
  induction m as [| [k0 v0] m IH]; cbn [JSMap.set map fst]; intros Hnd.
  - repeat constructor. intros [].
  - destruct (same k k0) eqn:Hk; cbn [map fst]; [exact Hnd |].
    inversion Hnd as [| ? ? Hnotin Hnd']; subst.
    constructor; [| auto].
    intros Hin. apply (keys_set m k v k0) in Hin.
    destruct Hin as [Hin | ->]; [contradiction |].
    rewrite same_refl in Hk. discriminate.
Qed.

Lemma get_None m k : JSMap.get m k = None <-> ~ In k (JSMap.keys m).
Proof.
  unfold JSMap.keys.
  induction m as [| [k0 v0] m IH]; cbn [JSMap.get map fst In].
  - tauto.
  - destruct (same k k0) eqn:Hk.
    + apply same_eq in Hk. subst k0. split; [discriminate | tauto].
    + rewrite IH. split; [| tauto].
      intros Hn [-> | Hin]; [| contradiction].
      rewrite same_refl in Hk. discriminate.
Qed.

Lemma get_In m k v : JSMap.get m k = Some v -> In (k, v) m.
Proof.
  induction m as [| [k0 v0] m IH]; cbn [JSMap.get In]; [discriminate |].
  destruct (same k k0) eqn:Hk.
  - apply same_eq in Hk. subst k0. intros [= ->]. now left.
  - auto.
Qed.

Lemma In_get m k v : NoDup (JSMap.keys m) -> In (k, v) m -> JSMap.get m k = Some v.
Proof.
  unfold JSMap.keys.
  induction m as [| [k0 v0] m IH]; cbn [JSMap.get In map fst]; [tauto |].
  intros Hnd Hin. inversion Hnd as [| ? ? Hnotin Hnd']; subst.
  destruct Hin as [[= -> ->] | Hin].
  - rewrite same_refl. reflexivity.
  - destruct (same k k0) eqn:Hk; [| auto].
    apply same_eq in Hk. subst k0.
    exfalso. apply Hnotin. apply (in_map fst) in Hin. exact Hin.
Qed.

End MapFacts.

(** ** The week rows of the month renderer *)

Section WeekRows.

(** The pill of a week row is the interval the rolling renderer would
    draw in the seven-day window starting at the week start. *)
Lemma weekPill_project (event : Event) (weekStart : Date)
    (reservationCheckouts : JSSet.t ISODate) :
  weekPill event weekStart reservationCheckouts =
  project event weekStart (addDays weekStart 7) reservationCheckouts.
Proof.
  unfold weekPill, project, computeEventSpan.
  fold (diffDays weekStart (addDays weekStart 7)).
  rewrite diffDays_addDays_r.
  assert (Hweek : weekStart < addDays weekStart 7)
    by (unfold addDays; pose proof msPerDay_pos; lia).
  pose proof (diffDays_mono (parseDate (end_ event)) (parseDate (start event))
                weekStart) as Hmono.
  generalize dependent (addDays weekStart 7). intros weekEnd Hweek.
  generalize dependent (parseDate (start event)).
  generalize dependent (parseDate (end_ event)).
  intros endDate startDate Hmono.
  destruct (isClosed event), (JSSet.has reservationCheckouts (start event));
    rewrite ?Z.geb_leb, ?Z.gtb_ltb;
    destruct (Z.leb_spec endDate weekStart); cbn [orb]; try reflexivity;
    destruct (Z.leb_spec weekEnd startDate); cbn [orb]; try reflexivity;
    destruct (Z.ltb_spec startDate weekStart);
    destruct (Z.ltb_spec weekEnd endDate);
    destruct (Z.leb_spec weekEnd endDate); try lia;
    cbn [startHalf endHalf];
    rewrite ?halfIndex_pm, ?halfIndex_am, ?diffDays_self;
    date_cases; try reflexivity; lia.
Qed.

End WeekRows.

(** ** Checkout dates and quick turns *)

Section RollingSets.

Lemma exists_cons (P : Event -> Prop) (ev : Event) (evs : list Event) :
  (exists e, In e (ev :: evs) /\ P e) <-> P ev \/ exists e, In e evs /\ P e.
Proof.
  split.
  - intros (e & [<- | Hin] & HP); [left | right]; eauto.
  - intros [HP | (e & Hin & HP)]; [exists ev | exists e]; cbn; auto.
Qed.

Lemma rolling_collect_fold (evs : list Event) (acc : Rolling.Sets) (D : ISODate) :
  (In D (Rolling.reservationStarts (fold_left Rolling.collect_step evs acc)) <->
   In D (Rolling.reservationStarts acc) \/
   exists e, In e evs /\ isClosed e = false /\ start e = D) /\
  (In D (Rolling.reservationEnds (fold_left Rolling.collect_step evs acc)) <->
   In D (Rolling.reservationEnds acc) \/
   exists e, In e evs /\ isClosed e = false /\ end_ e = D) /\
  (In D (Rolling.reservationCheckouts (fold_left Rolling.collect_step evs acc)) <->
   In D (Rolling.reservationCheckouts acc) \/
   exists e, In e evs /\ isClosed e = false /\ end_ e = D).
Proof.
  revert acc. induction evs as [| ev evs IH]; intros acc; cbn [fold_left].
  - repeat split; try tauto; intros [? | (e & [] & _)]; assumption.
  - destruct (IH (Rolling.collect_step acc ev)) as (IHs & IHe & IHc).
    rewrite IHs, IHe, IHc. clear IH IHs IHe IHc.
    rewrite (exists_cons (fun e => isClosed e = false /\ start e = D)),
            (exists_cons (fun e => isClosed e = false /\ end_ e = D)).
    unfold Rolling.collect_step.
    destruct (isClosed ev) eqn:Hclosed;
      cbn [Rolling.reservationStarts Rolling.reservationEnds
           Rolling.reservationCheckouts];
      rewrite ?In_add;
      intuition (try discriminate; auto).
Qed.

Lemma rolling_checkouts (property : Property) (D : ISODate) :
  In D (Rolling.reservationCheckouts (Rolling.collect property)) <->
  exists e, Booking property e /\ end_ e = D.
Proof.
  unfold Rolling.collect, Booking.
  destruct (rolling_collect_fold (events property)
              (Rolling.mkSets JSSet.empty JSSet.empty JSSet.empty) D)
    as (_ & _ & ->).
  cbn. split.
  - intros [[] | (e & ? & ? & ?)]. eauto.
  - intros (e & [? ?] & ?). eauto.
Qed.

(** The rolling renderer marks a date as soon as some booking arrives on
    it and some booking, possibly the same one, checks out on it. *)
Lemma rolling_quickTurns (property : Property) (D : ISODate) :
  In D (Rolling.quickTurns property) <->
  (exists c, Booking property c /\ end_ c = D) /\
  (exists a, Booking property a /\ start a = D).
Proof.
  unfold Rolling.quickTurns, Rolling.collect, Booking.
  rewrite In_of_list, filter_In, has_In.
  destruct (rolling_collect_fold (events property)
              (Rolling.mkSets JSSet.empty JSSet.empty JSSet.empty) D)
    as (-> & -> & _).
  cbn. split.
  - intros [[[] | (a & ? & ? & ?)] [[] | (c & ? & ? & ?)]].
    split; [exists c | exists a]; auto.
  - intros [(c & [? ?] & ?) (a & [? ?] & ?)].
    split; right; [exists a | exists c]; auto.
Qed.

End RollingSets.

Section MonthSets.

Implicit Types (m : Month.IdMap) (D : ISODate) (id : string).

Lemma add_id_get m D id D' :
  JSMap.get (Month.add_id m D id) D' =
  if same D' D
  then Some (JSSet.add (match JSMap.get m D with Some ids => ids | None => [] end) id)
  else JSMap.get m D'.
Proof.
  unfold Month.add_id, JSMap.has.
  destruct (JSMap.get m D) as [ids |] eqn:Hget.
  - rewrite Hget. apply get_set.
  - rewrite get_set, same_refl, !get_set.
    destruct (same D' D); reflexivity.
Qed.

Lemma add_id_keys m D id D' :
  In D' (JSMap.keys (Month.add_id m D id)) <-> In D' (JSMap.keys m) \/ D' = D.
Proof.
  unfold Month.add_id, JSMap.has.
  destruct (JSMap.get m D) as [ids |] eqn:Hget.
  - rewrite Hget. apply keys_set.
  - rewrite get_set, same_refl, !keys_set. tauto.
Qed.

Lemma add_id_NoDup m D id :
  NoDup (JSMap.keys m) -> NoDup (JSMap.keys (Month.add_id m D id)).
Proof.
  intros Hnd. unfold Month.add_id, JSMap.has.
  destruct (JSMap.get m D) as [ids |] eqn:Hget.
  - rewrite Hget. now apply NoDup_keys_set.
  - rewrite get_set, same_refl. now do 2 apply NoDup_keys_set.
Qed.

Lemma Tracks_empty (key : Event -> ISODate) : Tracks key JSMap.empty [].
Proof.
  repeat split; cbn; try constructor; try tauto; try discriminate.
  intros (e & [] & _).
Qed.

Lemma exists_snoc (P : Event -> Prop) (seen : list Event) (ev : Event) :
  (exists e, In e (seen ++ [ev]) /\ P e) <-> (exists e, In e seen /\ P e) \/ P ev.
Proof.
  split.
  - intros (e & Hin & HP). apply in_app_iff in Hin.
    destruct Hin as [Hin | [<- | []]]; eauto.
  - intros [(e & Hin & HP) | HP]; [exists e | exists ev];
      (split; [apply in_app_iff; cbn; auto | assumption]).
Qed.

Lemma Tracks_skip (key : Event -> ISODate) m seen ev :
  isClosed ev = true -> Tracks key m seen -> Tracks key m (seen ++ [ev]).
Proof.
  intros Hclosed (Hnd & Hkeys & Hids). split; [assumption | split].
  - intros D. rewrite Hkeys.
    rewrite (exists_snoc (fun e => isClosed e = false /\ key e = D)).
    intuition congruence.
  - intros D ids Hget id. rewrite (Hids D ids Hget id).
    rewrite (exists_snoc (fun e => isClosed e = false /\ key e = D /\ uid e = id)).
    intuition congruence.
Qed.

Lemma Tracks_add (key : Event -> ISODate) m seen ev :
  isClosed ev = false -> Tracks key m seen ->
  Tracks key (Month.add_id m (key ev) (uid ev)) (seen ++ [ev]).
Proof.
  intros Hopen (Hnd & Hkeys & Hids). split; [now apply add_id_NoDup | split].
  - intros D. rewrite add_id_keys, Hkeys.
    rewrite (exists_snoc (fun e => isClosed e = false /\ key e = D)).
    intuition congruence.
  - intros D ids. rewrite add_id_get.
    destruct (same D (key ev)) eqn:Hsame.
    + apply same_eq in Hsame. subst D. intros [= <-] id.
      rewrite In_add.
      rewrite (exists_snoc
                 (fun e => isClosed e = false /\ key e = key ev /\ uid e = id)).
      destruct (JSMap.get m (key ev)) as [ids0 |] eqn:Hget.
      * rewrite (Hids _ _ Hget id). intuition congruence.
      * apply get_None in Hget. rewrite Hkeys in Hget.
        split.
        -- intros [[] | ->]. auto.
        -- intros [(e & Hin & Hb & Hk & _) | (_ & _ & Hu)]; [| auto].
           exfalso. apply Hget. eauto.
    + intros Hget id. rewrite (Hids D ids Hget id).
      rewrite (exists_snoc (fun e => isClosed e = false /\ key e = D /\ uid e = id)).
      assert (key ev <> D).
      { intros <-. rewrite same_refl in Hsame. discriminate. }
      intuition congruence.
Qed.

Lemma month_collect_fold (evs seen : list Event) (acc : Month.IdMap * Month.IdMap) :
  Tracks start (fst acc) seen -> Tracks end_ (snd acc) seen ->
  Tracks start (fst (fold_left Month.collect_step evs acc)) (seen ++ evs) /\
  Tracks end_ (snd (fold_left Month.collect_step evs acc)) (seen ++ evs).
Proof.
  revert seen acc. induction evs as [| ev evs IH]; intros seen acc Hs He;
    cbn [fold_left].
  - rewrite app_nil_r. auto.
  - replace (seen ++ ev :: evs) with ((seen ++ [ev]) ++ evs)
      by (rewrite <- app_assoc; reflexivity).
    apply IH; unfold Month.collect_step;
      destruct (isClosed ev) eqn:Hclosed; cbn [negb fst snd];
      auto using Tracks_skip, Tracks_add.
Qed.

Lemma month_collect_tracks (property : Property) :
  Tracks start (fst (Month.collect property)) (events property) /\
  Tracks end_ (snd (Month.collect property)) (events property).
Proof.
  unfold Month.collect.
  apply (month_collect_fold (events property) []); apply Tracks_empty.
Qed.

Lemma month_checkouts (property : Property) D :
  In D (Month.reservationCheckouts property) <->
  exists e, Booking property e /\ end_ e = D.
Proof.
  unfold Month.reservationCheckouts, Booking. rewrite In_of_list.
  destruct (month_collect_tracks property) as (_ & _ & Hkeys & _).
  rewrite Hkeys. split; intros (e & H); exists e; tauto.
Qed.

(** Both renderers hand the same checkout dates to the projection. *)
Lemma checkouts_agree (property : Property) D :
  JSSet.has (Month.reservationCheckouts property) D =
  JSSet.has (Rolling.reservationCheckouts (Rolling.collect property)) D.
Proof.
  apply eq_true_iff_eq.
  rewrite !has_In, month_checkouts, rolling_checkouts. reflexivity.
Qed.

End MonthSets.

Section QuickTurns.

Implicit Types (property : Property) (D : ISODate).

Lemma month_quickTurns_fold (reservationEnds : Month.IdMap)
    (entries : list (ISODate * JSSet.t string)) (quickTurns : JSSet.t ISODate) D :
  In D (fold_left (Month.quickTurns_step reservationEnds) entries quickTurns) <->
  In D quickTurns \/
  exists startIds endIds,
    In (D, startIds) entries /\
    JSMap.get reservationEnds D = Some endIds /\
    existsb (fun id => negb (JSSet.has endIds id)) startIds = true.
Proof.
  revert quickTurns.
  induction entries as [| [dateStr startIds] entries IH]; intros quickTurns;
    cbn [fold_left].
  - split; [auto | intros [? | (? & ? & [] & _)]; assumption].
  - rewrite IH. clear IH. cbn [Month.quickTurns_step].
    split.
    + intros [Hin | (sIds & eIds & Hin & Hget & Hdiff)].
      * destruct (JSMap.get reservationEnds dateStr) as [endIds |] eqn:Hget;
          [| now left].
        destruct (existsb _ startIds) eqn:Hdiff; [| now left].
        apply In_add in Hin. destruct Hin as [Hin | ->]; [now left |].
        right. exists startIds, endIds. cbn. auto.
      * right. exists sIds, eIds. cbn. auto.
    + intros [Hin | (sIds & eIds & [[= -> ->] | Hin] & Hget & Hdiff)].
      * left.
        destruct (JSMap.get reservationEnds dateStr) as [endIds |]; [| assumption].
        destruct (existsb _ startIds); [| assumption].
        apply In_add. now left.
      * left. rewrite Hget, Hdiff. apply In_add. now right.
      * right. exists sIds, eIds. auto.
Qed.

(** The month renderer marks a date when some booking checks out on it
    and some booking arrives on it whose [uid] is the [uid] of no booking
    checking out on it. *)
Lemma month_quickTurns property D :
  In D (Month.quickTurns property) <->
  (exists c, Booking property c /\ end_ c = D) /\
  (exists a, Booking property a /\ start a = D /\
             forall c, Booking property c -> end_ c = D -> uid c <> uid a).
Proof.
  unfold Month.quickTurns, Booking.
  destruct (month_collect_tracks property) as [Hs He].
  destruct (Month.collect property) as [reservationStarts reservationEnds].
  cbn [fst snd] in Hs, He.
  destruct Hs as (HndS & HkeysS & HidsS). destruct He as (HndE & HkeysE & HidsE).
  rewrite month_quickTurns_fold. split.
  - intros [[] | (startIds & endIds & Hin & Hget & Hdiff)].
    apply existsb_exists in Hdiff. destruct Hdiff as (id & Hid & Hnot).
    apply negb_true_iff, has_false in Hnot.
    apply (In_get _ _ _ HndS) in Hin.
    apply (HidsS _ _ Hin) in Hid. destruct Hid as (a & Ha & Hopen & Hstart & Huid).
    split.
    + assert (Hkey : In D (JSMap.keys reservationEnds)).
      { apply get_In in Hget. apply (in_map fst) in Hget. exact Hget. }
      apply HkeysE in Hkey. destruct Hkey as (c & ? & ? & ?). exists c. auto.
    + exists a. repeat split; try assumption.
      intros c [Hc Hcopen] Hend Heq. apply Hnot.
      apply (HidsE _ _ Hget). exists c. repeat split; congruence.
  - intros [(c & [Hc Hcopen] & Hend) (a & [Ha Haopen] & Hstart & Hdiff)].
    right.
    destruct (JSMap.get reservationEnds D) as [endIds |] eqn:HgetE.
    2:{ apply get_None in HgetE. exfalso. apply HgetE, HkeysE. eauto. }
    destruct (JSMap.get reservationStarts D) as [startIds |] eqn:HgetS.
    2:{ apply get_None in HgetS. exfalso. apply HgetS, HkeysS. eauto. }
    exists startIds, endIds. split; [now apply get_In | split; [reflexivity |]].
    apply existsb_exists. exists (uid a). split.
    + apply (HidsS _ _ HgetS). exists a. auto.
    + apply negb_true_iff, has_false. intros Hin.
      apply (HidsE _ _ HgetE) in Hin.
      destruct Hin as (c' & Hc' & Hc'open & Hc'end & Huid).
      apply (Hdiff c'); auto.
Qed.

End QuickTurns.

(** ** The two renderers on a property *)

Section Renderers.

Implicit Types (property : Property) (event : Event) (D : ISODate).

Lemma closed_start_half event (rangeStart rangeEndExclusive : Date)
    (reservationCheckouts : JSSet.t ISODate) :
  isClosed event = true ->
  rangeStart < parseDate (end_ event) ->
  parseDate (start event) < rangeEndExclusive ->
  exists span,
    computeEventSpan event rangeStart rangeEndExclusive reservationCheckouts
      = Some span /\
    startHalf span =
      halfIndex (if parseDate (start event) <? rangeStart
                 then rangeStart else parseDate (start event))
                rangeStart
                (if JSSet.has reservationCheckouts (start event)
                 then "pm" else "am").
Proof.
  intros Hclosed Hend Hstart. unfold computeEventSpan. rewrite Hclosed.
  rewrite Z.geb_leb.
  destruct (Z.leb_spec (parseDate (end_ event)) rangeStart); [lia |].
  destruct (Z.leb_spec rangeEndExclusive (parseDate (start event))); [lia |].
  cbn [orb]. eexists. split; reflexivity.
Qed.

(** C3. A closed period that overlaps the window and whose start date
    is the checkout date of a booking of the property is projected from
    the afternoon slot of its clipped start day; one whose start date is
    no booking's checkout date, from the morning slot.  The pills of the
    month renderer's week rows start the same way. *)
Theorem closed_start_on_checkout property event
    (rangeStart rangeEndExclusive : Date) :
  type event = "closed" ->
  rangeStart < parseDate (end_ event) ->
  parseDate (start event) < rangeEndExclusive ->
  let displayStart :=
    if parseDate (start event) <? rangeStart
    then rangeStart else parseDate (start event) in
  let onCheckout := exists r, Booking property r /\ end_ r = start event in
  (exists span,
      computeEventSpan event rangeStart rangeEndExclusive
        (Rolling.reservationCheckouts (Rolling.collect property)) = Some span /\
      (onCheckout -> startHalf span = halfIndex displayStart rangeStart "pm") /\
      (~ onCheckout -> startHalf span = halfIndex displayStart rangeStart "am")) /\
  (forall span,
      weekPill event rangeStart (Month.reservationCheckouts property) = Some span ->
      (onCheckout -> startHalf span = halfIndex displayStart rangeStart "pm") /\
      (~ onCheckout -> startHalf span = halfIndex displayStart rangeStart "am")).
Proof.
  intros Hty Hend Hstart displayStart onCheckout.
  apply isClosed_type in Hty.
  assert (Hon : forall half,
    half = (if JSSet.has (Rolling.reservationCheckouts (Rolling.collect property))
                         (start event) then "pm" else "am") ->
    (onCheckout -> half = "pm") /\ (~ onCheckout -> half = "am")).
  { intros half ->. subst onCheckout.
    destruct (JSSet.has _ (start event)) eqn:Hhas.
    - apply has_In, rolling_checkouts in Hhas. tauto.
    - apply has_false in Hhas. rewrite rolling_checkouts in Hhas.
      split; [contradiction | reflexivity]. }
  split.
  - destruct (closed_start_half event rangeStart rangeEndExclusive
                (Rolling.reservationCheckouts (Rolling.collect property))
                Hty Hend Hstart) as (span & Hspan & Hhalf).
    exists span. split; [exact Hspan |].
    destruct (Hon _ eq_refl) as [Hpm Ham].
    split; intros Hc; rewrite Hhalf; [rewrite (Hpm Hc) | rewrite (Ham Hc)];
      reflexivity.
  - intros span. rewrite weekPill_project. unfold project.
    destruct (computeEventSpan event rangeStart (addDays rangeStart 7) _)
      as [span0 |] eqn:Hspan0; [| discriminate].
    destruct (endHalf span0 <=? startHalf span0); [discriminate |].
    intros [= <-].
    assert (Hhalf : startHalf span0 =
      halfIndex displayStart rangeStart
        (if JSSet.has (Month.reservationCheckouts property) (start event)
         then "pm" else "am")).
    { revert Hspan0. unfold computeEventSpan. rewrite Hty.
      destruct (_ || _); [discriminate |]. intros [= <-]. reflexivity. }
    rewrite checkouts_agree in Hhalf.
    destruct (Hon _ eq_refl) as [Hpm Ham].
    split; intros Hc; rewrite Hhalf; [rewrite (Hpm Hc) | rewrite (Ham Hc)];
      reflexivity.
Qed.

Lemma closed_start_on_checkout_witness :
  (exists span,
      computeEventSpan Samples.block Samples.winStart Samples.winEnd
        (Rolling.reservationCheckouts (Rolling.collect Samples.house)) = Some span /\
      ((exists r, Booking Samples.house r /\ end_ r = start Samples.block) ->
       startHalf span = 8) /\
      (~ (exists r, Booking Samples.house r /\ end_ r = start Samples.block) ->
       startHalf span = 7)) /\
  (forall span,
      weekPill Samples.block Samples.winStart
        (Month.reservationCheckouts Samples.house) = Some span ->
      ((exists r, Booking Samples.house r /\ end_ r = start Samples.block) ->
       startHalf span = 8) /\
      (~ (exists r, Booking Samples.house r /\ end_ r = start Samples.block) ->
       startHalf span = 7)).
Proof.
  apply (closed_start_on_checkout Samples.house Samples.block
           Samples.winStart Samples.winEnd).
  - reflexivity.
  - vm_compute. reflexivity.
  - vm_compute. reflexivity.
Defined.

(** Whatever the month renderer marks is a quick turn. *)
Lemma month_quickTurns_sound property D :
  In D (Month.quickTurns property) -> QuickTurnDate property D.
Proof.
  rewrite month_quickTurns.
  intros [(c & [Hc Hcopen] & Hend) (a & [Ha Haopen] & Hstart & Hdiff)].
  exists c, a. repeat split; try assumption.
  apply Hdiff; [split |]; assumption.
Qed.

(** Every quick turn is marked by the rolling renderer. *)
Lemma rolling_quickTurns_complete property D :
  QuickTurnDate property D -> In D (Rolling.quickTurns property).
Proof.
  rewrite rolling_quickTurns.
  intros (c & a & Hc & Ha & Hcopen & Haopen & Hend & Hstart & _).
  split; [exists c | exists a]; repeat split; assumption.
Qed.

(** On data whose events all end after they start and carry distinct
    uids, both renderers mark exactly the quick turns. *)
Lemma quickTurns_wellformed property D :
  WellFormed property ->
  (In D (Month.quickTurns property) <-> QuickTurnDate property D) /\
  (In D (Rolling.quickTurns property) <-> QuickTurnDate property D).
Proof.
  intros [Hspan Huid].
  assert (Hself : forall c a,
    In c (events property) -> In a (events property) ->
    end_ c = D -> start a = D -> uid c <> uid a).
  { intros c a Hc Ha Hend Hstart Heq.
    pose proof (Huid c a Hc Ha Heq) as ->.
    pose proof (Hspan a Ha) as Hlt. rewrite Hend, Hstart in Hlt. lia. }
  split; split.
  - apply month_quickTurns_sound.
  - intros (c & a & Hc & Ha & Hcopen & Haopen & Hend & Hstart & _).
    apply month_quickTurns. split.
    + exists c. repeat split; assumption.
    + exists a. repeat split; try assumption.
      intros c' [Hc' _] Hend'. now apply Hself.
  - rewrite rolling_quickTurns.
    intros [(c & [Hc Hcopen] & Hend) (a & [Ha Haopen] & Hstart)].
    exists c, a. repeat split; try assumption. now apply Hself.
  - apply rolling_quickTurns_complete.
Qed.

(** C6 on the code.  For a property whose only event is a reservation
    with arrival and checkout on Mar 5, the rolling renderer marks Mar 5
    as a quick turn; it is not one, and the month renderer does not mark
    it. *)
Theorem rolling_quick_turn_ignores_identity :
  JSSet.has (Rolling.quickTurns Samples.sameDayHouse) (Samples.d 2026 3 5) = true /\
  JSSet.has (Month.quickTurns Samples.sameDayHouse) (Samples.d 2026 3 5) = false /\
  ~ QuickTurnDate Samples.sameDayHouse (Samples.d 2026 3 5).
Proof.
  split; [vm_compute; reflexivity | split; [vm_compute; reflexivity |]].
  intros (c & a & Hc & Ha & _ & _ & _ & _ & Hdiff).
  cbn in Hc, Ha.
  destruct Hc as [<- | []], Ha as [<- | []].
  now apply Hdiff.
Qed.

(** The same happens for one booking delivered as two events that share
    a uid and meet on Mar 5. *)
Lemma rolling_quick_turn_same_uid :
  JSSet.has (Rolling.quickTurns Samples.splitHouse) (Samples.d 2026 3 5) = true /\
  JSSet.has (Month.quickTurns Samples.splitHouse) (Samples.d 2026 3 5) = false /\
  ~ QuickTurnDate Samples.splitHouse (Samples.d 2026 3 5).
Proof.
  split; [vm_compute; reflexivity | split; [vm_compute; reflexivity |]].
  intros (c & a & Hc & Ha & _ & _ & Hend & Hstart & Hdiff).
  cbn in Hc, Ha.
  destruct Hc as [<- | [<- | []]], Ha as [<- | [<- | []]];
    try discriminate Hend; try discriminate Hstart.
  now apply Hdiff.
Qed.

(** Back-to-back bookings with different uids are marked by both. *)
Lemma back_to_back_is_quick_turn :
  JSSet.has (Rolling.quickTurns Samples.turnHouse) (Samples.d 2026 3 5) = true /\
  JSSet.has (Month.quickTurns Samples.turnHouse) (Samples.d 2026 3 5) = true /\
  QuickTurnDate Samples.turnHouse (Samples.d 2026 3 5).
Proof.
  split; [vm_compute; reflexivity | split; [vm_compute; reflexivity |]].
  exists Samples.turnA, Samples.turnB. cbn.
  repeat split; auto. discriminate.
Qed.

(** The windows the renderers project into are bounded by midnights as
    soon as the view start is one. *)
Lemma addDays_aligned (t : Date) (n : Z) : day_aligned t -> day_aligned (addDays t n).
Proof.
  unfold day_aligned, addDays. intros Ht.
  rewrite Z.mod_add by discriminate. exact Ht.
Qed.

Lemma rolling_window_aligned (viewStart : Date) :
  day_aligned viewStart ->
  day_aligned (fst (Rolling.window viewStart)) /\
  day_aligned (snd (Rolling.window viewStart)) /\
  fst (Rolling.window viewStart) < snd (Rolling.window viewStart).
Proof.
  intros Hview. unfold Rolling.window. cbn [fst snd].
  match goal with |- context [if ?b then _ else _] => destruct b end.
  - split; [| split].
    + apply makeUTCDate_aligned.
    + apply addDays_aligned, makeUTCDate_aligned.
    + reflexivity.
  - split; [| split].
    + assumption.
    + now apply addDays_aligned.
    + unfold addDays, Rolling.VIEW_DAYS. pose proof msPerDay_pos. lia.
Qed.

(** Hence every interval of the rolling view lies within its window. *)
Lemma span_within_rolling_window property event (viewStart : Date) span :
  day_aligned viewStart ->
  computeEventSpan event (fst (Rolling.window viewStart))
    (snd (Rolling.window viewStart))
    (Rolling.reservationCheckouts (Rolling.collect property)) = Some span ->
  1 <= startHalf span /\ endHalf span <= Rolling.VIEW_DAYS * 2 + 1.
Proof.
  intros Hview Hspan.
  destruct (rolling_window_aligned viewStart Hview) as (_ & Hend & Hlt).
  pose proof (computeEventSpan_bounds event _ _ _ span Hend Hspan) as Hin.
  replace (totalHalves (fst (Rolling.window viewStart))
             (snd (Rolling.window viewStart)))
    with (Rolling.VIEW_DAYS * 2) in Hin; [exact Hin |].
  unfold totalHalves, Rolling.window. cbn [fst snd].
  rewrite diffDays_addDays_r. reflexivity.
Qed.

End Renderers.

(* ------------------------------------------------------------------ *)
(** * Further properties of the code *)

(** ** Years, months and days of a time value *)

Section DateAccessors.

Implicit Types (t : Date) (y m d day : Z).

Lemma Day_MakeDate day (time : Z) :
  0 <= time < msPerDay -> Day (MakeDate day time) = day.
Proof.
  intros Htime. unfold Day, MakeDate.
  rewrite Z.add_comm, Z.div_add by discriminate.
  rewrite Z.div_small by assumption. reflexivity.
Qed.

Lemma TimeWithinDay_MakeDate day (time : Z) :
  0 <= time < msPerDay -> TimeWithinDay (MakeDate day time) = time.
Proof.
  intros Htime. unfold TimeWithinDay, MakeDate.
  rewrite Z.add_comm, Z.mod_add by discriminate.
  now apply Z.mod_small.
Qed.

Lemma MakeDate_Day t : MakeDate (Day t) (TimeWithinDay t) = t.
Proof.
  unfold MakeDate, Day, TimeWithinDay.
  pose proof (Z.div_mod t msPerDay ltac:(discriminate)). lia.
Qed.

Lemma TimeWithinDay_bound t : 0 <= TimeWithinDay t < msPerDay.
Proof. apply Z.mod_pos_bound. reflexivity. Qed.

Lemma Day_addDays t (n : Z) : Day (addDays t n) = Day t + n.
Proof. unfold Day, addDays. apply Z.div_add. discriminate. Qed.

Lemma TimeWithinDay_addDays t (n : Z) :
  TimeWithinDay (addDays t n) = TimeWithinDay t.
Proof. unfold TimeWithinDay, addDays. apply Z.mod_add. discriminate. Qed.

Lemma Day_aligned t : day_aligned t -> t = Day t * msPerDay.
Proof.
  unfold day_aligned, Day. intros Ht.
  pose proof (Z.div_mod t msPerDay ltac:(discriminate)). lia.
Qed.

Lemma Day_makeUTCDate (year month date : Z) :
  Day (makeUTCDate year month date) = MakeDay (MakeFullYear year) month date.
Proof.
  unfold makeUTCDate, Date_UTC, Day. apply Z.div_mul. discriminate.
Qed.

(** The estimate of [YearFromDay] is at most one year off. *)
Lemma year_estimate_low day :
  DayFromYear (1970 + 400 * day / 146097 - 1) <= day.
Proof. unfold DayFromYear. Z.div_mod_to_equations. lia. Qed.

Lemma year_estimate_high day :
  day < DayFromYear (1970 + 400 * day / 146097 + 2).
Proof. unfold DayFromYear. Z.div_mod_to_equations. lia. Qed.

(** [YearFromDay] meets ECMAScript's definition of the year of a day. *)
Lemma YearFromDay_spec day :
  DayFromYear (YearFromDay day) <= day < DayFromYear (YearFromDay day + 1).
Proof.
  unfold YearFromDay.
  pose proof (year_estimate_low day) as Hlow.
  pose proof (year_estimate_high day) as Hhigh.
  set (y0 := 1970 + 400 * day / 146097) in *.
  destruct (Z.ltb_spec day (DayFromYear y0)) as [Hlt | Hge].
  - replace (y0 - 1 + 1) with y0 by lia. lia.
  - destruct (Z.leb_spec (DayFromYear (y0 + 1)) day) as [Hle | Hgt].
    + replace (y0 + 1 + 1) with (y0 + 2) by lia. lia.
    + lia.
Qed.

Lemma DayFromYear_mono (y1 y2 : Z) :
  y1 <= y2 -> DayFromYear y1 + 365 * (y2 - y1) <= DayFromYear y2.
Proof.
  intros Hle. unfold DayFromYear. Z.div_mod_to_equations. lia.
Qed.

Lemma YearFromDay_unique y day :
  DayFromYear y <= day < DayFromYear (y + 1) -> YearFromDay day = y.
Proof.
  intros Hy. pose proof (YearFromDay_spec day) as Hspec.
  set (y' := YearFromDay day) in *.
  destruct (Z.lt_trichotomy y' y) as [Hlt | [Heq | Hgt]]; [| assumption |].
  - pose proof (DayFromYear_mono (y' + 1) y ltac:(lia)). lia.
  - pose proof (DayFromYear_mono (y + 1) y' ltac:(lia)). lia.
Qed.

Lemma DayWithinYear_bound t :
  0 <= DayWithinYear t <
  365 + (if InLeapYear (YearFromTime t) then 1 else 0).
Proof.
  unfold DayWithinYear, YearFromTime.
  pose proof (YearFromDay_spec (Day t)) as Hspec.
  rewrite DayFromYear_succ in Hspec. lia.
Qed.

Lemma MakeDay_normal y m d :
  0 <= m <= 11 ->
  MakeDay y m d = DayFromYear y + DayOfMonthStart m (InLeapYear y) + d - 1.
Proof.
  intros Hm. unfold MakeDay.
  rewrite (Z.div_small m 12), (Z.mod_small m 12), Z.add_0_r by lia.
  reflexivity.
Qed.

Lemma MonthFromTime_range t : 0 <= MonthFromTime t <= 11.
Proof.
  unfold MonthFromTime.
  repeat match goal with
    | |- context [Z.ltb ?a ?b] => destruct (Z.ltb_spec a b)
    end; lia.
Qed.

(** The date is the offset of the day within its month, and exists in
    that month. *)
Lemma DateFromTime_offset t :
  DateFromTime t =
    DayWithinYear t
    - DayOfMonthStart (MonthFromTime t) (InLeapYear (YearFromTime t)) + 1 /\
  1 <= DateFromTime t <= daysInMonth (YearFromTime t) (MonthFromTime t).
Proof.
  pose proof (DayWithinYear_bound t) as Hd.
  unfold DateFromTime, MonthFromTime.
  generalize dependent (DayWithinYear t). intros d Hd.
  destruct (InLeapYear (YearFromTime t)) eqn:Hleap;
    repeat match goal with
      | |- context [Z.ltb ?a ?b] => destruct (Z.ltb_spec a b)
      end;
    cbn [daysInMonth DayOfMonthStart]; rewrite ?Hleap; lia.
Qed.

(** Reading year, month and date off a time value and putting them
    together again gives the day number back. *)
Lemma MakeDay_of_parts t :
  MakeDay (YearFromTime t) (MonthFromTime t) (DateFromTime t) = Day t.
Proof.
  rewrite MakeDay_normal by apply MonthFromTime_range.
  destruct (DateFromTime_offset t) as [-> _].
  unfold DayWithinYear. lia.
Qed.

(** Conversely the parts of a civil date are read back from its day
    number. *)
Lemma parts_of_MakeDay y m d t :
  0 <= m <= 11 -> 1 <= d <= daysInMonth y m -> Day t = MakeDay y m d ->
  YearFromTime t = y /\ MonthFromTime t = m /\ DateFromTime t = d.
Proof.
  intros Hm Hd Hday.
  assert (Hq : m / 12 = 0) by (apply Z.div_small; lia).
  assert (Hr : m mod 12 = m) by (apply Z.mod_small; lia).
  unfold MakeDay in Hday. rewrite Hq, Hr, Z.add_0_r in Hday.
  assert (Hyear : YearFromTime t = y).
  { unfold YearFromTime. apply YearFromDay_unique.
    rewrite DayFromYear_succ, Hday.
    assert (Hcases : m = 0 \/ m = 1 \/ m = 2 \/ m = 3 \/ m = 4 \/ m = 5 \/ m = 6 \/
                     m = 7 \/ m = 8 \/ m = 9 \/ m = 10 \/ m = 11) by lia.
    repeat (destruct Hcases as [Hcases | Hcases]); subst m;
      cbn [daysInMonth DayOfMonthStart] in *;
      destruct (InLeapYear y); lia. }
  unfold DateFromTime, MonthFromTime, DayWithinYear.
  rewrite Hyear, Hday.
  replace (DayFromYear y + DayOfMonthStart m (InLeapYear y) + d - 1 - DayFromYear y)
    with (DayOfMonthStart m (InLeapYear y) + d - 1) by lia.
  split; [reflexivity |].
  assert (Hcases : m = 0 \/ m = 1 \/ m = 2 \/ m = 3 \/ m = 4 \/ m = 5 \/ m = 6 \/
                   m = 7 \/ m = 8 \/ m = 9 \/ m = 10 \/ m = 11) by lia.
  repeat (destruct Hcases as [Hcases | Hcases]); subst m;
    cbn [daysInMonth DayOfMonthStart] in *;
    destruct (InLeapYear y);
    repeat match goal with
      | |- context [Z.ltb ?a ?b] => destruct (Z.ltb_spec a b)
      end; try lia; split; (reflexivity || lia).
Qed.

End DateAccessors.

(** ** [addDays], [dateToISO], [startOfWeek] *)

Section DateFunctions.

Implicit Types (t dateObj : Date) (iso : ISODate).

(** X1. [addDays], which sets the day of the month to the current one
    plus [days] and lets [setUTCDate] carry, moves the time value by
    exactly [days] whole days, forward or backward, across month and
    year ends. *)
Theorem addDays_setUTCDate_exact dateObj (days : Z) :
  addDays_setUTCDate dateObj days = dateObj + days * msPerDay /\
  addDays_setUTCDate dateObj days = addDays dateObj days.
Proof.
  assert (Heq : addDays_setUTCDate dateObj days = dateObj + days * msPerDay).
  { unfold addDays_setUTCDate, setUTCDate, getUTCDate.
    rewrite MakeDay_date.
    replace (MakeDay (YearFromTime dateObj) (MonthFromTime dateObj) 1
             + (DateFromTime dateObj + days - 1))
      with (MakeDay (YearFromTime dateObj) (MonthFromTime dateObj) 1
            + (DateFromTime dateObj - 1) + days) by lia.
    rewrite <- MakeDay_date, MakeDay_of_parts.
    rewrite <- (MakeDate_Day dateObj) at 3. unfold MakeDate. lia. }
  split; [exact Heq | rewrite Heq; reflexivity].
Qed.

Lemma MakeFullYear_id (y : Z) : ~ (0 <= y <= 99) -> MakeFullYear y = y.
Proof.
  intros Hy. unfold MakeFullYear.
  destruct (Z.leb_spec 0 y), (Z.leb_spec y 99); cbn [andb]; lia.
Qed.

(** X2. Writing out the date parsed from a civil date string gives the
    string back: month 1 to 12, a day that exists in the month, a
    four-digit year from 100 on (a year below 100 parses into the
    1900s). *)
Theorem dateToISO_parseDate iso :
  ValidISO iso -> 100 <= iso_year iso <= 9999 ->
  dateToISO (parseDate iso) = iso.
Proof.
  intros [Hm Hd] Hy. destruct iso as [y m d]. cbn [iso_year iso_month iso_day] in *.
  unfold dateToISO, parseDate, getUTCFullYear, getUTCMonth, getUTCDate.
  cbn [iso_year iso_month iso_day].
  destruct (parts_of_MakeDay y (m - 1) d (makeUTCDate y (m - 1) d))
    as (-> & -> & ->); [lia | assumption | |].
  - rewrite Day_makeUTCDate, MakeFullYear_id by lia. reflexivity.
  - f_equal. lia.
Qed.

Lemma dateToISO_parseDate_witness :
  dateToISO (parseDate (mkISO 2024 2 29)) = mkISO 2024 2 29.
Proof.
  apply (dateToISO_parseDate (mkISO 2024 2 29)).
  - unfold ValidISO. cbn. lia.
  - cbn. lia.
Defined.

(** X3. Parsing the date string of a time value gives the midnight that
    starts its day, hence the time value itself when it is a midnight
    (years 100 to 9999). *)
Theorem parseDate_dateToISO t :
  100 <= getUTCFullYear t <= 9999 ->
  parseDate (dateToISO t) = t - TimeWithinDay t /\
  (day_aligned t -> parseDate (dateToISO t) = t).
Proof.
  intros Hy.
  assert (Hfloor : parseDate (dateToISO t) = Day t * msPerDay).
  { unfold parseDate, dateToISO, makeUTCDate, Date_UTC.
    cbn [iso_year iso_month iso_day].
    rewrite MakeFullYear_id by lia.
    replace (getUTCMonth t + 1 - 1) with (getUTCMonth t) by lia.
    unfold getUTCFullYear, getUTCMonth, getUTCDate.
    rewrite MakeDay_of_parts. reflexivity. }
  rewrite Hfloor.
  pose proof (MakeDate_Day t) as Ht. unfold MakeDate in Ht.
  split; [lia |].
  unfold day_aligned. unfold TimeWithinDay in Ht. lia.
Qed.

Lemma parseDate_dateToISO_witness :
  parseDate (dateToISO 1770000000000) = 1770000000000 - 9600000 /\
  (day_aligned 1770000000000 -> parseDate (dateToISO 1770000000000) = 1770000000000).
Proof.
  apply (parseDate_dateToISO 1770000000000).
  vm_compute. split; discriminate.
Defined.

(** Two midnights with the same date string are the same time value. *)
Lemma dateToISO_inj (t1 t2 : Date) :
  day_aligned t1 -> day_aligned t2 -> dateToISO t1 = dateToISO t2 -> t1 = t2.
Proof.
  intros H1 H2 Heq.
  rewrite (Day_aligned t1 H1), (Day_aligned t2 H2). f_equal.
  rewrite <- (MakeDay_of_parts t1), <- (MakeDay_of_parts t2).
  unfold dateToISO, getUTCFullYear, getUTCMonth, getUTCDate in Heq.
  injection Heq as Hy Hm Hd.
  rewrite Hy, Hd. f_equal. lia.
Qed.

Lemma startOfWeek_offset t :
  startOfWeek t = addDays t (- ((Day t + 3) mod 7)).
Proof.
  unfold startOfWeek, getUTCDay, WeekDay. f_equal. f_equal.
  Z.div_mod_to_equations. lia.
Qed.

(** X4. [startOfWeek] returns a Monday, at the same time of day, on or
    before the date and less than seven days before it. *)
Theorem startOfWeek_monday t :
  getUTCDay (startOfWeek t) = 1 /\
  TimeWithinDay (startOfWeek t) = TimeWithinDay t /\
  startOfWeek t <= t < addDays (startOfWeek t) 7.
Proof.
  rewrite startOfWeek_offset.
  unfold getUTCDay, WeekDay.
  rewrite Day_addDays, TimeWithinDay_addDays.
  split; [| split; [reflexivity |]].
  - Z.div_mod_to_equations. lia.
  - unfold addDays. pose proof msPerDay_pos.
    pose proof (Z.mod_pos_bound (Day t + 3) 7 eq_refl). nia.
Qed.

(** X5. Every day of a week leads back to the same Monday: from the
    week start, going on by up to six days and taking the week start
    again changes nothing. *)
Theorem startOfWeek_same_week t (k : Z) :
  0 <= k < 7 -> startOfWeek (addDays (startOfWeek t) k) = startOfWeek t.
Proof.
  intros Hk. rewrite !startOfWeek_offset. rewrite !Day_addDays.
  unfold addDays.
  replace ((Day t + - ((Day t + 3) mod 7) + k + 3) mod 7) with k
    by (Z.div_mod_to_equations; lia).
  lia.
Qed.

Lemma startOfWeek_same_week_witness :
  startOfWeek (addDays (startOfWeek Samples.winStart) 6) =
  startOfWeek Samples.winStart.
Proof.
  apply (startOfWeek_same_week Samples.winStart 6). lia.
Defined.

End DateFunctions.

(** ** The month grid of [renderSingleProperty] *)

Section MonthGridFacts.

Lemma daysInMonth_bound (year mn : Z) : 28 <= daysInMonth year mn <= 31.
Proof.
  unfold daysInMonth.
  destruct mn as [| p | p]; try lia.
  destruct (InLeapYear year);
    repeat (destruct p as [p | p |]; try lia).
Qed.

(** The month after a first of the month starts one month length
    later. *)
Lemma next_month_start (monthStart : Date) :
  day_aligned monthStart -> getUTCDate monthStart = 1 ->
  ~ (0 <= getUTCFullYear monthStart <= 99) ->
  makeUTCDate (getUTCFullYear monthStart) (getUTCMonth monthStart + 1) 1 =
  addDays monthStart
    (daysInMonth (getUTCFullYear monthStart) (getUTCMonth monthStart)).
Proof.
  intros Hal Hfirst Hy.
  rewrite makeUTCDate_next_month, MakeFullYear_id by assumption.
  pose proof (MonthFromTime_range monthStart) as Hm.
  unfold getUTCMonth, getUTCFullYear, getUTCDate in *.
  rewrite (Z.div_small (MonthFromTime monthStart) 12),
          (Z.mod_small (MonthFromTime monthStart) 12), Z.add_0_r by lia.
  f_equal.
  unfold makeUTCDate, Date_UTC. rewrite MakeFullYear_id by assumption.
  rewrite <- Hfirst, MakeDay_of_parts. symmetry. now apply Day_aligned.
Qed.

Lemma Math_ceil_div_weeks (n : Z) : Math_ceil_div (7 * n) 7 = n.
Proof. unfold Math_ceil_div. Z.div_mod_to_equations. lia. Qed.

(** X6. For a month start (a midnight on the first of a month), the
    grid of the month view runs from the Monday on or before the first
    to the Monday after the last day of the month, pads less than a week
    on either side, and is made of four, five or six whole weeks. *)
Theorem month_grid_shape (monthStart : Date) :
  day_aligned monthStart -> getUTCDate monthStart = 1 ->
  100 <= getUTCFullYear monthStart ->
  let g := MonthGrid.grid monthStart in
  MonthGrid.monthEndExclusive g =
    addDays monthStart
      (daysInMonth (getUTCFullYear monthStart) (getUTCMonth monthStart)) /\
  getUTCDay (MonthGrid.gridStart g) = 1 /\
  getUTCDay (MonthGrid.gridEndExclusive g) = 1 /\
  MonthGrid.gridStart g <= monthStart < addDays (MonthGrid.gridStart g) 7 /\
  MonthGrid.monthEndExclusive g <= MonthGrid.gridEndExclusive g
    < addDays (MonthGrid.monthEndExclusive g) 7 /\
  MonthGrid.totalDays g = 7 * MonthGrid.weeks g /\
  4 <= MonthGrid.weeks g <= 6 /\
  MonthGrid.gridEndExclusive g = addDays (MonthGrid.gridStart g) (7 * MonthGrid.weeks g).
Proof.
  intros Hal Hfirst Hy g. subst g.
  unfold MonthGrid.grid.
  cbn [MonthGrid.monthEndExclusive MonthGrid.gridStart MonthGrid.gridEndExclusive
       MonthGrid.totalDays MonthGrid.weeks].
  rewrite next_month_start by (assumption || lia).
  pose proof (daysInMonth_bound (getUTCFullYear monthStart) (getUTCMonth monthStart))
    as Hdim.
  set (dim := daysInMonth _ _) in *.
  rewrite !startOfWeek_offset, !Day_addDays.
  unfold getUTCDay, WeekDay. rewrite !Day_addDays.
  set (D := Day monthStart).
  set (a := (D + 3) mod 7).
  set (b := (D + dim + -1 + 3) mod 7).
  assert (Ha : 0 <= a < 7) by (apply Z.mod_pos_bound; reflexivity).
  assert (Hb : 0 <= b < 7) by (apply Z.mod_pos_bound; reflexivity).
  assert (Hab : exists n, dim + 6 + a - b = 7 * n /\ 4 <= n <= 6).
  { exists ((dim + 6 + a - b) / 7). subst a b. Z.div_mod_to_equations. lia. }
  destruct Hab as (n & Hn & Hrange).
  assert (Htotal :
    diffDays (addDays monthStart (- a))
             (addDays (addDays (addDays (addDays monthStart dim) (-1)) (- b)) 7)
    = 7 * n).
  { unfold diffDays, addDays.
    replace (monthStart + dim * msPerDay + -1 * msPerDay + - b * msPerDay
             + 7 * msPerDay - (monthStart + - a * msPerDay))
      with ((dim + 6 + a - b) * msPerDay) by lia.
    rewrite round_days. exact Hn. }
  rewrite Htotal, Math_ceil_div_weeks.
  pose proof msPerDay_pos as Hms.
  repeat split; try lia.
  - subst a. Z.div_mod_to_equations. lia.
  - subst b. Z.div_mod_to_equations. lia.
  - unfold addDays. nia.
  - unfold addDays. nia.
  - unfold addDays. nia.
  - unfold addDays. nia.
  - unfold addDays. nia.
Qed.

Lemma month_grid_shape_witness :
  let monthStart := makeUTCDate 2026 1 1 in
  let g := MonthGrid.grid monthStart in
  MonthGrid.monthEndExclusive g =
    addDays monthStart
      (daysInMonth (getUTCFullYear monthStart) (getUTCMonth monthStart)) /\
  getUTCDay (MonthGrid.gridStart g) = 1 /\
  getUTCDay (MonthGrid.gridEndExclusive g) = 1 /\
  MonthGrid.gridStart g <= monthStart < addDays (MonthGrid.gridStart g) 7 /\
  MonthGrid.monthEndExclusive g <= MonthGrid.gridEndExclusive g
    < addDays (MonthGrid.monthEndExclusive g) 7 /\
  MonthGrid.totalDays g = 7 * MonthGrid.weeks g /\
  4 <= MonthGrid.weeks g <= 6 /\
  MonthGrid.gridEndExclusive g = addDays (MonthGrid.gridStart g) (7 * MonthGrid.weeks g).
Proof.
  intros monthStart.
  apply (month_grid_shape monthStart).
  - vm_compute. reflexivity.
  - vm_compute. reflexivity.
  - vm_compute. discriminate.
Defined.

End MonthGridFacts.

(** ** More on the projection *)

Section MoreProjection.

Implicit Types (event : Event) (rangeStart rangeEndExclusive : Date).
Implicit Types (reservationCheckouts : JSSet.t ISODate) (span : Span).

(** An event that ends after it starts and overlaps a window bounded by
    midnights is never dropped as degenerate. *)
Lemma overlapping_span_kept event rangeStart rangeEndExclusive
    reservationCheckouts :
  day_aligned rangeStart -> day_aligned rangeEndExclusive ->
  rangeStart < rangeEndExclusive ->
  parseDate (start event) < parseDate (end_ event) ->
  rangeStart < parseDate (end_ event) ->
  parseDate (start event) < rangeEndExclusive ->
  exists span,
    computeEventSpan event rangeStart rangeEndExclusive reservationCheckouts
      = Some span /\
    project event rangeStart rangeEndExclusive reservationCheckouts = Some span.
Proof.
  intros Hrs Hre Hwin Hev Hend Hstart.
  unfold project, computeEventSpan.
  fold (diffDays rangeStart rangeEndExclusive).
  pose proof (diffDays_self rangeStart) as Hself.
  pose proof (diffDays_parse_lt _ _ rangeStart Hev) as Hnights.
  pose proof (diffDays_aligned_lt rangeStart rangeEndExclusive rangeStart
                Hrs Hre Hwin) as Hdays.
  pose proof (diffDays_aligned_lt rangeStart (parseDate (end_ event)) rangeStart
                Hrs (parseDate_aligned _) Hend) as Hfirst.
  pose proof (diffDays_aligned_lt (parseDate (start event)) rangeEndExclusive
                rangeStart (parseDate_aligned _) Hre Hstart) as Hlast.
  rewrite !Z.geb_leb, !Z.gtb_ltb.
  destruct (Z.leb_spec (parseDate (end_ event)) rangeStart); [lia |].
  destruct (Z.leb_spec rangeEndExclusive (parseDate (start event))); [lia |].
  cbn [orb].
  destruct (isClosed event), (JSSet.has reservationCheckouts (start event));
    destruct (Z.ltb_spec (parseDate (start event)) rangeStart);
    destruct (Z.ltb_spec rangeEndExclusive (parseDate (end_ event)));
    destruct (Z.leb_spec rangeEndExclusive (parseDate (end_ event)));
    try lia;
    eexists; (split; [reflexivity |]);
    cbn [startHalf endHalf];
    rewrite ?halfIndex_pm, ?halfIndex_am, ?Hself;
    match goal with
    | |- context [Z.leb ?a ?b] => destruct (Z.leb_spec a b); [lia | reflexivity]
    end.
Qed.

(** X7. In a window bounded by midnights, an event that ends after it
    starts is drawn exactly when it overlaps the window: nothing is
    drawn if it ends at or before the window start or starts at or after
    the window end, and an interval is drawn otherwise. *)
Theorem drawn_iff_overlaps event rangeStart rangeEndExclusive
    reservationCheckouts :
  day_aligned rangeStart -> day_aligned rangeEndExclusive ->
  rangeStart < rangeEndExclusive ->
  parseDate (start event) < parseDate (end_ event) ->
  (project event rangeStart rangeEndExclusive reservationCheckouts = None <->
   parseDate (end_ event) <= rangeStart \/
   rangeEndExclusive <= parseDate (start event)).
Proof.
  intros Hrs Hre Hwin Hev. split.
  - intros Hnone.
    destruct (Z.le_gt_cases (parseDate (end_ event)) rangeStart) as [? | Hend];
      [now left |].
    destruct (Z.le_gt_cases rangeEndExclusive (parseDate (start event)))
      as [? | Hstart]; [now right |].
    destruct (overlapping_span_kept event rangeStart rangeEndExclusive
                reservationCheckouts Hrs Hre Hwin Hev Hend Hstart)
      as (span & _ & Hspan).
    congruence.
  - intros Hout. unfold project, computeEventSpan. rewrite Z.geb_leb.
    destruct (Z.leb_spec (parseDate (end_ event)) rangeStart); [reflexivity |].
    destruct (Z.leb_spec rangeEndExclusive (parseDate (start event)));
      [reflexivity | lia].
Qed.

Lemma drawn_iff_overlaps_witness :
  project Samples.stay Samples.winStart Samples.winEnd [] = None <->
  parseDate (end_ Samples.stay) <= Samples.winStart \/
  Samples.winEnd <= parseDate (start Samples.stay).
Proof.
  apply (drawn_iff_overlaps Samples.stay Samples.winStart Samples.winEnd []).
  - vm_compute. reflexivity.
  - vm_compute. reflexivity.
  - vm_compute. reflexivity.
  - vm_compute. reflexivity.
Defined.

(** X8. Moving the window by [n] days moves the interval of an event
    that lies inside both windows by [2 n] half-day slots the other
    way. *)
Theorem span_shifts_with_window event rangeStart rangeEndExclusive
    reservationCheckouts (n : Z) :
  parseDate (start event) < parseDate (end_ event) ->
  rangeStart <= parseDate (start event) ->
  addDays rangeStart n <= parseDate (start event) ->
  parseDate (end_ event) < rangeEndExclusive ->
  parseDate (end_ event) < addDays rangeEndExclusive n ->
  computeEventSpan event (addDays rangeStart n) (addDays rangeEndExclusive n)
    reservationCheckouts =
  option_map (fun span => mkSpan (startHalf span - 2 * n) (endHalf span - 2 * n))
    (computeEventSpan event rangeStart rangeEndExclusive reservationCheckouts).
Proof.
  intros Hev Hs Hs' He He'.
  unfold computeEventSpan.
  rewrite !Z.geb_leb, !Z.gtb_ltb.
  repeat match goal with
    | |- context [Z.leb ?a ?b] => destruct (Z.leb_spec a b); try lia
    | |- context [Z.ltb ?a ?b] => destruct (Z.ltb_spec a b); try lia
    end.
  cbn [orb option_map].
  destruct (isClosed event); cbn [option_map startHalf endHalf];
    rewrite !halfIndex_diffDays, !diffDays_shift_start;
    f_equal; f_equal; lia.
Qed.

Lemma span_shifts_with_window_witness :
  computeEventSpan Samples.stay (addDays Samples.winStart 1)
    (addDays Samples.winEnd 1) [] =
  option_map (fun span => mkSpan (startHalf span - 2 * 1) (endHalf span - 2 * 1))
    (computeEventSpan Samples.stay Samples.winStart Samples.winEnd []).
Proof.
  apply (span_shifts_with_window Samples.stay Samples.winStart Samples.winEnd [] 1).
  - vm_compute. reflexivity.
  - vm_compute. discriminate.
  - vm_compute. discriminate.
  - vm_compute. reflexivity.
  - vm_compute. reflexivity.
Defined.

(** The projection looks at the checkout set only to ask whether the
    event's own start is in it. *)
Lemma computeEventSpan_checkouts event rangeStart rangeEndExclusive
    (set1 set2 : JSSet.t ISODate) :
  JSSet.has set1 (start event) = JSSet.has set2 (start event) ->
  computeEventSpan event rangeStart rangeEndExclusive set1 =
  computeEventSpan event rangeStart rangeEndExclusive set2.
Proof. intros Hhas. unfold computeEventSpan. rewrite Hhas. reflexivity. Qed.

(** X9. The pills of a week row of the month view are the intervals the
    rolling view draws for the same property in the seven-day window
    that starts at the week start: the inline copy of the projection in
    [renderSingleProperty] agrees with [computeEventSpan] and the guards
    of [renderCalendar]. *)
Theorem week_pills_are_rolling_spans (property : Property) (weekStart : Date) :
  Month.pills property weekStart =
  Rolling.spans property weekStart (addDays weekStart 7).
Proof.
  unfold Month.pills, Rolling.spans. apply map_ext. intros event.
  rewrite weekPill_project. unfold project.
  rewrite (computeEventSpan_checkouts event weekStart (addDays weekStart 7)
             (Month.reservationCheckouts property)
             (Rolling.reservationCheckouts (Rolling.collect property)))
    by apply checkouts_agree.
  reflexivity.
Qed.

End MoreProjection.

(** ** Occupied halves and days *)

#[export] Instance Z_same_laws : SameValueZeroLaws Z.
Proof. intros a b. apply Z.eqb_eq. Qed.

Section Occupancy.

Implicit Types (property : Property) (event : Event) (span : Span).

Lemma In_upto (n i : Z) : In i (upto n) <-> 0 <= i < n.
Proof.
  unfold upto. rewrite in_map_iff. split.
  - intros (k & <- & Hk). apply in_seq in Hk. lia.
  - intros Hi. exists (Z.to_nat i). split; [lia |]. apply in_seq. lia.
Qed.

Lemma In_from_to (a b i : Z) : In i (from_to a b) <-> a <= i < b.
Proof.
  unfold from_to. rewrite in_map_iff. split.
  - intros (k & <- & Hk). apply In_upto in Hk. lia.
  - intros Hi. exists (i - a). split; [lia |]. apply In_upto. lia.
Qed.

Lemma timeline_occupied_fold (rangeStart rangeEndExclusive : Date)
    (checkouts : JSSet.t ISODate) (evs : list Event) (acc : JSSet.t Z) (h : Z) :
  In h (fold_left (Timeline.occupied_step rangeStart rangeEndExclusive checkouts)
                  evs acc) <->
  In h acc \/
  exists event span,
    In event evs /\
    project event rangeStart rangeEndExclusive checkouts = Some span /\
    startHalf span <= h < endHalf span.
Proof.
  revert acc. induction evs as [| ev evs IH]; intros acc; cbn [fold_left].
  - split; [auto | intros [? | (? & ? & [] & _)]; assumption].
  - rewrite IH. clear IH.
    assert (Hstep : forall h',
      In h' (Timeline.occupied_step rangeStart rangeEndExclusive checkouts acc ev) <->
      In h' acc \/
      exists span,
        project ev rangeStart rangeEndExclusive checkouts = Some span /\
        startHalf span <= h' < endHalf span).
    { intros h'. unfold Timeline.occupied_step, project.
      destruct (computeEventSpan ev rangeStart rangeEndExclusive checkouts)
        as [sp |].
      - destruct (endHalf sp <=? startHalf sp).
        + split; [auto | intros [? | (? & [=] & _)]; assumption].
        + rewrite In_fold_add, In_from_to. split.
          * intros [? | ?]; [now left | right; exists sp; auto].
          * intros [? | (? & [= <-] & ?)]; auto.
      - split; [auto | intros [? | (? & [=] & _)]; assumption]. }
    rewrite Hstep. split.
    + intros [[? | (s & ? & ?)] | (e & s & ? & ? & ?)].
      * now left.
      * right. exists ev, s. cbn. auto.
      * right. exists e, s. cbn. auto.
    + intros [? | (e & s & [<- | ?] & ? & ?)].
      * now left; left.
      * left. right. exists s. auto.
      * right. exists e, s. auto.
Qed.

Lemma timeline_occupied_has property (rangeStart rangeEndExclusive : Date) (h : Z) :
  JSSet.has (Timeline.occupied property rangeStart rangeEndExclusive) h = true <->
  exists event span,
    In event (events property) /\
    project event rangeStart rangeEndExclusive
      (Rolling.reservationCheckouts (Rolling.collect property)) = Some span /\
    startHalf span <= h < endHalf span.
Proof.
  rewrite has_In. unfold Timeline.occupied.
  rewrite timeline_occupied_fold. cbn. tauto.
Qed.

(** X10. In the rolling view a half-day slot is in the occupied set
    exactly when it lies in the interval drawn for some event of the
    property, and a day cell gets the class [occupied] exactly when
    such an interval meets one of the two halves of the day. *)
Theorem timeline_occupied_iff property (rangeStart rangeEndExclusive : Date) :
  (forall h,
      JSSet.has (Timeline.occupied property rangeStart rangeEndExclusive) h = true <->
      exists event span,
        In event (events property) /\
        project event rangeStart rangeEndExclusive
          (Rolling.reservationCheckouts (Rolling.collect property)) = Some span /\
        startHalf span <= h < endHalf span) /\
  (forall day,
      Timeline.cell_occupied
        (Timeline.cell property rangeStart rangeEndExclusive day) = true <->
      exists event span,
        In event (events property) /\
        project event rangeStart rangeEndExclusive
          (Rolling.reservationCheckouts (Rolling.collect property)) = Some span /\
        startHalf span <= day * 2 + 2 /\ day * 2 + 1 < endHalf span).
Proof.
  split; [apply timeline_occupied_has |].
  intros day. cbn [Timeline.cell Timeline.cell_occupied].
  rewrite orb_true_iff, !timeline_occupied_has. split.
  - intros [(e & s & ? & ? & ?) | (e & s & ? & ? & ?)];
      exists e, s; repeat split; try assumption; lia.
  - intros (e & s & Hin & Hs & Hlo & Hhi).
    pose proof Hs as Hdrawn. unfold project in Hdrawn.
    destruct (computeEventSpan _ _ _ _) as [s0 |]; [| discriminate].
    destruct (Z.leb_spec (endHalf s0) (startHalf s0)); [discriminate |].
    injection Hdrawn as ->.
    destruct (Z.le_gt_cases (startHalf s) (day * 2 + 1)).
    + left. exists e, s. repeat split; try assumption; lia.
    + right. exists e, s. repeat split; try assumption; lia.
Qed.

(** X11. With a window end on a midnight the occupied set of the rolling
    view holds nothing but slots of the grid, [1] to [totalHalves]. *)
Theorem timeline_occupied_in_grid property (rangeStart rangeEndExclusive : Date)
    (h : Z) :
  day_aligned rangeEndExclusive ->
  JSSet.has (Timeline.occupied property rangeStart rangeEndExclusive) h = true ->
  1 <= h <= totalHalves rangeStart rangeEndExclusive.
Proof.
  intros Hre Hhas. apply timeline_occupied_has in Hhas.
  destruct Hhas as (e & s & _ & Hs & Hh).
  unfold project in Hs.
  destruct (computeEventSpan e rangeStart rangeEndExclusive _) as [s0 |] eqn:Hspan;
    [| discriminate].
  destruct (endHalf s0 <=? startHalf s0); [discriminate |].
  injection Hs as ->.
  pose proof (computeEventSpan_bounds _ _ _ _ _ Hre Hspan). lia.
Qed.

Lemma timeline_occupied_in_grid_witness :
  1 <= 4 <= totalHalves Samples.winStart Samples.winEnd.
Proof.
  apply (timeline_occupied_in_grid Samples.house Samples.winStart Samples.winEnd 4).
  - vm_compute. reflexivity.
  - vm_compute. reflexivity.
Defined.

End Occupancy.

Section MonthOccupancy.

Implicit Types (property : Property) (event : Event).

Lemma diffDays_aligned_exact (a b : Date) :
  day_aligned a -> day_aligned b -> diffDays a b * msPerDay = b - a.
Proof.
  intros Ha Hb.
  pose proof (aligned_diff b a Hb Ha) as Hmod.
  apply Z.mod_divide in Hmod; [| discriminate].
  destruct Hmod as [k Hk]. unfold diffDays. rewrite Hk, round_days. reflexivity.
Qed.

Lemma In_fold_add_map {K A : Type} `{SameValueZeroLaws K} (f : A -> K)
    (l : list A) (s : JSSet.t K) (x : K) :
  In x (fold_left (fun acc a => JSSet.add acc (f a)) l s) <->
  In x s \/ exists a, In a l /\ x = f a.
Proof.
  revert s. induction l as [| a l IH]; intros s; cbn [fold_left].
  - split; [auto | intros [? | (? & [] & _)]; assumption].
  - rewrite IH, In_add. split.
    + intros [[? | ->] | (a' & ? & ?)]; [now left | |].
      * right. exists a. cbn. auto.
      * right. exists a'. cbn. auto.
    + intros [? | (a' & [<- | ?] & ?)]; [now left; left | now left; right |].
      right. exists a'. auto.
Qed.

Lemma month_occupied_step (gridStart gridEndExclusive : Date)
    (acc : JSSet.t ISODate) event (iso : ISODate) :
  In iso (MonthGrid.occupied_step gridStart gridEndExclusive acc event) <->
  In iso acc \/
  (gridStart < parseDate (end_ event) /\
   parseDate (start event) < gridEndExclusive /\
   exists day,
     0 <= day < diffDays (Z.max (parseDate (start event)) gridStart)
                         (Z.min (parseDate (end_ event)) gridEndExclusive) /\
     iso = dateToISO (addDays (Z.max (parseDate (start event)) gridStart) day)).
Proof.
  unfold MonthGrid.occupied_step. rewrite Z.geb_leb, Z.gtb_ltb.
  destruct (Z.leb_spec (parseDate (end_ event)) gridStart);
    [cbn [orb]; split; [auto | intros [? | (? & _)]; [assumption | lia]] |].
  destruct (Z.leb_spec gridEndExclusive (parseDate (start event)));
    [cbn [orb]; split; [auto | intros [? | (_ & ? & _)]; [assumption | lia]] |].
  cbn [orb]. rewrite In_fold_add_map.
  replace (if parseDate (start event) <? gridStart
           then gridStart else parseDate (start event))
    with (Z.max (parseDate (start event)) gridStart)
    by (destruct (Z.ltb_spec (parseDate (start event)) gridStart); lia).
  replace (if gridEndExclusive <? parseDate (end_ event)
           then gridEndExclusive else parseDate (end_ event))
    with (Z.min (parseDate (end_ event)) gridEndExclusive)
    by (destruct (Z.ltb_spec gridEndExclusive (parseDate (end_ event))); lia).
  split.
  - intros [? | (day & Hday & ->)]; [now left |].
    right. repeat split; try assumption. exists day.
    split; [now apply In_upto | reflexivity].
  - intros [? | (_ & _ & day & Hday & ->)]; [now left |].
    right. exists day. split; [now apply In_upto | reflexivity].
Qed.

Lemma month_occupied_fold (gridStart gridEndExclusive : Date)
    (evs : list Event) (acc : JSSet.t ISODate) (t : Date) :
  day_aligned gridStart -> day_aligned gridEndExclusive -> day_aligned t ->
  In (dateToISO t)
     (fold_left (MonthGrid.occupied_step gridStart gridEndExclusive) evs acc) <->
  In (dateToISO t) acc \/
  exists event, In event evs /\
    gridStart <= t < gridEndExclusive /\
    parseDate (start event) <= t < parseDate (end_ event).
Proof.
  intros Hgs Hge Ht. revert acc.
  induction evs as [| ev evs IH]; intros acc; cbn [fold_left].
  - split; [auto | intros [? | (? & [] & _)]; assumption].
  - rewrite IH, month_occupied_step. clear IH.
    set (S := parseDate (start ev)). set (E := parseDate (end_ ev)).
    assert (HS : day_aligned S) by apply parseDate_aligned.
    assert (HE : day_aligned E) by apply parseDate_aligned.
    assert (Hmax : day_aligned (Z.max S gridStart))
      by (destruct (Z.max_spec S gridStart) as [[_ ->] | [_ ->]]; assumption).
    assert (Hmin : day_aligned (Z.min E gridEndExclusive))
      by (destruct (Z.min_spec E gridEndExclusive) as [[_ ->] | [_ ->]]; assumption).
    pose proof (diffDays_aligned_exact _ _ Hmax Hmin) as Hexact.
    pose proof msPerDay_pos as Hms.
    split.
    + intros [[? | (Hend & Hstart & day & Hday & Hiso)] | (e & ? & ?)].
      * now left.
      * right. exists ev. split; [now left |].
        apply dateToISO_inj in Hiso;
          [| assumption | now apply addDays_aligned].
        subst t. unfold addDays. nia.
      * right. exists e. split; [now right | assumption].
    + intros [? | (e & [<- | ?] & Hgrid & Hev)].
      * now left; left.
      * left. right. fold S E in Hev.
        split; [lia | split; [lia |]].
        pose proof (aligned_diff t (Z.max S gridStart) Ht Hmax) as Hmod.
        apply Z.mod_divide in Hmod; [| discriminate].
        destruct Hmod as [k Hk]. exists k. split; [nia |].
        f_equal. unfold addDays. lia.
      * right. exists e. auto.
Qed.

(** X12. In the month view a day of the grid counts as occupied exactly
    when some event of the property, of either type, starts on or before
    it and ends after it: the day an event ends is not covered by that
    event (grid bounds and the day taken at midnight). *)
Theorem month_occupied_iff property (gridStart gridEndExclusive t : Date) :
  day_aligned gridStart -> day_aligned gridEndExclusive -> day_aligned t ->
  (JSSet.has (MonthGrid.occupied property gridStart gridEndExclusive)
             (dateToISO t) = true <->
   gridStart <= t < gridEndExclusive /\
   exists event, In event (events property) /\
     parseDate (start event) <= t < parseDate (end_ event)).
Proof.
  intros Hgs Hge Ht. rewrite has_In. unfold MonthGrid.occupied.
  rewrite month_occupied_fold by assumption. cbn. split.
  - intros [[] | (e & ? & ? & ?)]. split; [assumption | exists e; auto].
  - intros [? (e & ? & ?)]. right. exists e. auto.
Qed.

Lemma month_occupied_iff_witness :
  JSSet.has (MonthGrid.occupied Samples.house Samples.winStart Samples.winEnd)
            (dateToISO (makeUTCDate 2026 0 31)) = true <->
  Samples.winStart <= makeUTCDate 2026 0 31 < Samples.winEnd /\
  exists event, In event (events Samples.house) /\
    parseDate (start event) <= makeUTCDate 2026 0 31 < parseDate (end_ event).
Proof.
  apply (month_occupied_iff Samples.house Samples.winStart Samples.winEnd
           (makeUTCDate 2026 0 31)).
  - vm_compute. reflexivity.
  - vm_compute. reflexivity.
  - vm_compute. reflexivity.
Defined.

Lemma open_event_inside_span event (rangeStart rangeEndExclusive : Date)
    (checkouts : JSSet.t ISODate) :
  isClosed event = false ->
  rangeStart <= parseDate (start event) ->
  parseDate (start event) < parseDate (end_ event) ->
  parseDate (end_ event) < rangeEndExclusive ->
  project event rangeStart rangeEndExclusive checkouts =
  Some (mkSpan (diffDays rangeStart (parseDate (start event)) * 2 + 2)
               (diffDays rangeStart (parseDate (end_ event)) * 2 + 2)).
Proof.
  intros Hopen Hs Hev He.
  pose proof (diffDays_parse_lt _ _ rangeStart Hev) as Hnights.
  unfold project, computeEventSpan. rewrite Hopen.
  rewrite !Z.geb_leb, !Z.gtb_ltb.
  repeat match goal with
    | |- context [Z.leb ?a ?b] => destruct (Z.leb_spec a b); try lia
    | |- context [Z.ltb ?a ?b] => destruct (Z.ltb_spec a b); try lia
    end.
  cbn [orb startHalf endHalf]. rewrite halfIndex_pm, halfIndex_am.
  destruct (Z.leb_spec (diffDays rangeStart (parseDate (end_ event)) * 2 + 1 + 1)
              (diffDays rangeStart (parseDate (start event)) * 2 + 2)); [lia |].
  f_equal. f_equal. lia.
Qed.

(** X13. The two views treat the checkout day differently.  For a
    booking inside the rolling window the day cell of its checkout day
    is marked occupied (the checkout morning is part of its interval);
    in the month view the checkout day is not marked occupied unless
    some event covers that day. *)
Theorem checkout_day_in_both_views property event
    (rangeStart rangeEndExclusive gridStart gridEndExclusive : Date) :
  In event (events property) -> isClosed event = false ->
  rangeStart <= parseDate (start event) ->
  parseDate (start event) < parseDate (end_ event) ->
  parseDate (end_ event) < rangeEndExclusive ->
  day_aligned gridStart -> day_aligned gridEndExclusive ->
  (forall other, In other (events property) ->
     ~ (parseDate (start other) <= parseDate (end_ event) < parseDate (end_ other))) ->
  Timeline.cell_occupied
    (Timeline.cell property rangeStart rangeEndExclusive
       (diffDays rangeStart (parseDate (end_ event)))) = true /\
  JSSet.has (MonthGrid.occupied property gridStart gridEndExclusive)
            (dateToISO (parseDate (end_ event))) = false.
Proof.
  intros Hin Hopen Hs Hev He Hgs Hge Hfree. split.
  - cbn [Timeline.cell Timeline.cell_occupied].
    apply orb_true_iff. left. apply timeline_occupied_has.
    eexists event, _. split; [assumption | split].
    + now apply open_event_inside_span.
    + cbn [startHalf endHalf].
      pose proof (diffDays_parse_lt _ _ rangeStart Hev). lia.
  - apply has_false. rewrite <- has_In.
    unfold MonthGrid.occupied.
    rewrite has_In, month_occupied_fold
      by (assumption || apply parseDate_aligned).
    intros [[] | (other & Hother & _ & Hcover)].
    exact (Hfree other Hother Hcover).
Qed.

Lemma checkout_day_in_both_views_witness :
  Timeline.cell_occupied
    (Timeline.cell Samples.turnHouse Samples.winStart (makeUTCDate 2026 3 1)
       (diffDays Samples.winStart (parseDate (end_ Samples.turnB)))) = true /\
  JSSet.has (MonthGrid.occupied Samples.turnHouse Samples.winStart
               (makeUTCDate 2026 3 1))
            (dateToISO (parseDate (end_ Samples.turnB))) = false.
Proof.
  apply (checkout_day_in_both_views Samples.turnHouse Samples.turnB
           Samples.winStart (makeUTCDate 2026 3 1)
           Samples.winStart (makeUTCDate 2026 3 1)).
  - cbn. auto.
  - reflexivity.
  - vm_compute. discriminate.
  - vm_compute. reflexivity.
  - vm_compute. reflexivity.
  - vm_compute. reflexivity.
  - vm_compute. reflexivity.
  - intros other [<- | [<- | []]]; vm_compute; intros [H1 H2];
      try (apply H1; reflexivity); try discriminate H2.
Defined.

End MonthOccupancy.

(** ** The two renderers side by side *)

Section SideBySide.

Implicit Types (property : Property) (D : ISODate).

Lemma keys_set_list {V : Type} (m : JSMap.t ISODate V) (k : ISODate) (v : V) :
  JSMap.keys (JSMap.set m k v) =
  if JSSet.has (JSMap.keys m) k then JSMap.keys m else JSMap.keys m ++ [k].
Proof.
  unfold JSMap.keys, JSSet.has.
  induction m as [| [k0 v0] m IH]; cbn [JSMap.set map fst existsb app].
  - reflexivity.
  - destruct (same k k0) eqn:Hk; cbn [map fst orb]; [reflexivity |].
    rewrite IH. destruct (existsb (same k) (map fst m)); reflexivity.
Qed.

Lemma keys_add_id (m : Month.IdMap) D (id : string) :
  JSMap.keys (Month.add_id m D id) = JSSet.add (JSMap.keys m) D.
Proof.
  unfold Month.add_id, JSSet.add, JSMap.has.
  destruct (JSMap.get m D) as [ids |] eqn:Hget.
  - assert (Hhas : JSSet.has (JSMap.keys m) D = true).
    { apply has_In. apply get_In in Hget.
      apply (in_map fst) in Hget. exact Hget. }
    rewrite Hget, keys_set_list, Hhas. reflexivity.
  - assert (Hhas : JSSet.has (JSMap.keys m) D = false)
      by (apply has_false; now apply get_None).
    rewrite get_set, same_refl, !keys_set_list, Hhas.
    unfold JSSet.has. rewrite existsb_app. cbn [existsb].
    rewrite same_refl, orb_true_r. reflexivity.
Qed.

Lemma fold_add_NoDup {K : Type} `{SameValueZeroLaws K} (l s : list K) :
  NoDup (s ++ l) -> fold_left JSSet.add l s = s ++ l.
Proof.
  revert s. induction l as [| k l IH]; intros s Hnd; cbn [fold_left].
  - now rewrite app_nil_r.
  - assert (Hnot : JSSet.has s k = false).
    { apply has_false. intros Hin.
      apply NoDup_remove_2 in Hnd. apply Hnd, in_app_iff. now left. }
    unfold JSSet.add at 2. rewrite Hnot.
    rewrite IH; rewrite <- app_assoc; [reflexivity | exact Hnd].
Qed.

Lemma collect_keys (evs : list Event) (accM : Month.IdMap * Month.IdMap)
    (accR : Rolling.Sets) :
  JSMap.keys (fst accM) = Rolling.reservationStarts accR ->
  JSMap.keys (snd accM) = Rolling.reservationEnds accR ->
  JSMap.keys (snd accM) = Rolling.reservationCheckouts accR ->
  JSMap.keys (fst (fold_left Month.collect_step evs accM)) =
    Rolling.reservationStarts (fold_left Rolling.collect_step evs accR) /\
  JSMap.keys (snd (fold_left Month.collect_step evs accM)) =
    Rolling.reservationEnds (fold_left Rolling.collect_step evs accR) /\
  JSMap.keys (snd (fold_left Month.collect_step evs accM)) =
    Rolling.reservationCheckouts (fold_left Rolling.collect_step evs accR).
Proof.
  revert accM accR. induction evs as [| ev evs IH]; intros accM accR Hs He Hc;
    cbn [fold_left]; [auto |].
  apply IH; unfold Month.collect_step, Rolling.collect_step;
    destruct (isClosed ev);
    cbn [negb fst snd Rolling.reservationStarts Rolling.reservationEnds
         Rolling.reservationCheckouts];
    rewrite ?keys_add_id; congruence.
Qed.

(** X14. Both renderers build the same checkout-date set for a property,
    key for key and in the same order, although one collects plain date
    strings and the other the keys of a map from date to booking ids. *)
Theorem checkout_sets_equal property :
  Month.reservationCheckouts property =
  Rolling.reservationCheckouts (Rolling.collect property).
Proof.
  unfold Month.reservationCheckouts, Rolling.collect.
  destruct (collect_keys (events property) (JSMap.empty, JSMap.empty)
              (Rolling.mkSets JSSet.empty JSSet.empty JSSet.empty)
              eq_refl eq_refl eq_refl) as (_ & _ & Hkeys).
  fold (Month.collect property) in Hkeys. rewrite <- Hkeys.
  unfold JSSet.of_list, JSSet.empty.
  rewrite fold_add_NoDup; [reflexivity |].
  destruct (month_collect_tracks property) as (_ & Hnd & _).
  exact Hnd.
Qed.

(** X15. Whatever date the month view marks as a quick turn, the
    rolling view marks too, on any data: the rolling view only asks for
    an arrival and a checkout on the date, the month view also for an
    arriving booking whose id is not among the ids checking out. *)
Theorem month_quick_turns_in_rolling property D :
  JSSet.has (Month.quickTurns property) D = true ->
  JSSet.has (Rolling.quickTurns property) D = true.
Proof.
  rewrite !has_In, month_quickTurns, rolling_quickTurns.
  intros [Hc (a & Ha & Hstart & _)]. split; [exact Hc | exists a; auto].
Qed.

Lemma month_quick_turns_in_rolling_witness :
  JSSet.has (Rolling.quickTurns Samples.turnHouse) (Samples.d 2026 3 5) = true.
Proof.
  apply (month_quick_turns_in_rolling Samples.turnHouse (Samples.d 2026 3 5)).
  vm_compute. reflexivity.
Defined.

End SideBySide.

(** ** Navigation *)

Section Navigation.

Implicit Types (st : View.State) (dateObj : Date).

Lemma window_at_MIN_DATE :
  Rolling.window Rolling.MIN_DATE =
  (Rolling.MIN_DATE, addDays Rolling.MIN_DATE Rolling.VIEW_DAYS).
Proof. reflexivity. Qed.

Lemma existsb_header_dates (rangeStart target : Date) (days : Z) :
  day_aligned rangeStart -> day_aligned target ->
  existsb (same (dateToISO target))
          (map (fun i => dateToISO (addDays rangeStart i)) (upto days)) = true <->
  rangeStart <= target < addDays rangeStart days.
Proof.
  intros Hrs Ht. rewrite existsb_exists.
  pose proof msPerDay_pos as Hms. split.
  - intros (iso & Hin & Hsame). apply same_eq in Hsame. subst iso.
    apply in_map_iff in Hin. destruct Hin as (i & Hiso & Hi).
    apply In_upto in Hi.
    apply dateToISO_inj in Hiso; [| now apply addDays_aligned | assumption].
    subst target. unfold addDays. nia.
  - intros Hin.
    pose proof (aligned_diff target rangeStart Ht Hrs) as Hmod.
    apply Z.mod_divide in Hmod; [| discriminate].
    destruct Hmod as [k Hk].
    exists (dateToISO target). split; [| apply same_refl].
    apply in_map_iff. exists k. split.
    + f_equal. unfold addDays. lia.
    + apply In_upto. unfold addDays in Hin. nia.
Qed.

(** X17. The scroll that follows [setFocusDate] finds its header cell
    exactly when the date asked for lies before the end of the fixed
    window: from [MIN_DATE] plus 365 days on there is no cell to scroll
    to (the date a midnight, in a year up to 9999). *)
Theorem scroll_target_found_iff st dateObj :
  day_aligned dateObj -> getUTCFullYear dateObj <= 9999 ->
  (View.scroll_target_found (View.setFocusDate st dateObj) = true <->
   dateObj < addDays Rolling.MIN_DATE Rolling.VIEW_DAYS).
Proof.
  intros Hal _.
  unfold View.scroll_target_found, View.setFocusDate, Timeline.header_dates.
  cbn [View.pendingScrollToISO View.viewStart].
  rewrite window_at_MIN_DATE. cbn [fst].
  assert (Hmin : day_aligned Rolling.MIN_DATE) by apply makeUTCDate_aligned.
  destruct (Z.ltb_spec dateObj Rolling.MIN_DATE) as [Hlt | Hge].
  - rewrite existsb_header_dates by assumption.
    unfold addDays, Rolling.VIEW_DAYS in *. pose proof msPerDay_pos. lia.
  - rewrite existsb_header_dates by assumption. lia.
Qed.

Lemma scroll_target_found_iff_witness :
  View.scroll_target_found
    (View.setFocusDate View.initial (makeUTCDate 2027 0 6)) = true <->
  makeUTCDate 2027 0 6 < addDays Rolling.MIN_DATE Rolling.VIEW_DAYS.
Proof.
  apply (scroll_target_found_iff View.initial (makeUTCDate 2027 0 6)).
  - vm_compute. reflexivity.
  - vm_compute. discriminate.
Defined.

(** X18. Next and Prev of the all-properties view undo each other: moving
    the focus by [days] and back by [-days] restores it, as long as
    neither the focus nor the moved focus lies before [MIN_DATE]; a move
    that would end before [MIN_DATE] ends on [MIN_DATE]. *)
Theorem shiftView_all_round_trip st (focus : Date) (days : Z) :
  View.focusDate st = Some focus ->
  Rolling.MIN_DATE <= focus ->
  (Rolling.MIN_DATE <= addDays focus days ->
   View.focusDate (View.shiftView_all (View.shiftView_all st days) (- days))
     = Some focus) /\
  (addDays focus days < Rolling.MIN_DATE ->
   View.focusDate (View.shiftView_all st days) = Some Rolling.MIN_DATE).
Proof.
  intros Hfocus Hmin.
  unfold View.shiftView_all, View.setFocusDate.
  cbn [View.focusDate View.viewStart]. rewrite Hfocus.
  split; intros Hmoved.
  - destruct (Z.ltb_spec (addDays focus days) Rolling.MIN_DATE); [lia |].
    replace (addDays (addDays focus days) (- days)) with focus
      by (unfold addDays; lia).
    destruct (Z.ltb_spec focus Rolling.MIN_DATE); [lia | reflexivity].
  - destruct (Z.ltb_spec (addDays focus days) Rolling.MIN_DATE); [reflexivity | lia].
Qed.

Lemma shiftView_all_round_trip_witness :
  (Rolling.MIN_DATE <= addDays (addDays (makeUTCDate 2026 0 1) 7) 30 ->
   View.focusDate (View.shiftView_all (View.shiftView_all View.initial 30) (- 30))
     = Some (addDays (makeUTCDate 2026 0 1) 7)) /\
  (addDays (addDays (makeUTCDate 2026 0 1) 7) 30 < Rolling.MIN_DATE ->
   View.focusDate (View.shiftView_all View.initial 30) = Some Rolling.MIN_DATE).
Proof.
  apply (shiftView_all_round_trip View.initial (addDays (makeUTCDate 2026 0 1) 7) 30).
  - reflexivity.
  - vm_compute. discriminate.
Defined.

(** The midnight that starts the day of a time value. *)
Lemma makeUTCDate_of_parts dateObj :
  ~ (0 <= getUTCFullYear dateObj <= 99) ->
  makeUTCDate (getUTCFullYear dateObj) (getUTCMonth dateObj) (getUTCDate dateObj)
  = dateObj - TimeWithinDay dateObj.
Proof.
  intros Hy. unfold makeUTCDate, Date_UTC.
  rewrite MakeFullYear_id by assumption.
  unfold getUTCFullYear, getUTCMonth, getUTCDate. rewrite MakeDay_of_parts.
  pose proof (MakeDate_Day dateObj) as Ht. unfold MakeDate in Ht. lia.
Qed.

(** X19. Every state the controls can bring about has its view start on
    a midnight and a focus date set, so that the window of the rolling
    view is bounded by midnights and is exactly 365 days long; and
    [setViewStart] sets the view start to the midnight that starts the
    day it is given (year 100 or later). *)
Theorem reachable_window st :
  View.Reachable st ->
  day_aligned (View.viewStart st) /\
  View.focusDate st <> None /\
  day_aligned (fst (Rolling.window (View.viewStart st))) /\
  snd (Rolling.window (View.viewStart st)) =
    addDays (fst (Rolling.window (View.viewStart st))) Rolling.VIEW_DAYS /\
  (forall dateObj scrollToISO focusOverride,
      100 <= getUTCFullYear dateObj ->
      View.viewStart (View.setViewStart st dateObj scrollToISO focusOverride)
      = dateObj - TimeWithinDay dateObj).
Proof.
  intros Hreach.
  assert (Hinv : day_aligned (View.viewStart st) /\ View.focusDate st <> None).
  { induction Hreach.
    - split; [apply makeUTCDate_aligned | discriminate].
    - split; [apply makeUTCDate_aligned | discriminate].
    - split; [apply makeUTCDate_aligned | discriminate]. }
  destruct Hinv as [Hal Hfocus].
  destruct (rolling_window_aligned _ Hal) as (Hrs & _ & _).
  repeat split; try assumption.
  intros dateObj scrollToISO focusOverride Hy.
  unfold View.setViewStart. cbn [View.viewStart].
  apply makeUTCDate_of_parts. lia.
Qed.

Lemma reachable_window_witness :
  day_aligned (View.viewStart View.initial) /\
  View.focusDate View.initial <> None /\
  day_aligned (fst (Rolling.window (View.viewStart View.initial))) /\
  snd (Rolling.window (View.viewStart View.initial)) =
    addDays (fst (Rolling.window (View.viewStart View.initial))) Rolling.VIEW_DAYS /\
  (forall dateObj scrollToISO focusOverride,
      100 <= getUTCFullYear dateObj ->
      View.viewStart (View.setViewStart View.initial dateObj scrollToISO focusOverride)
      = dateObj - TimeWithinDay dateObj).
Proof.
  apply (reachable_window View.initial). apply View.reach_initial.
Defined.

End Navigation.

Section MonthNavigation.

Implicit Types (st : View.State).

Lemma MakeDay_carry (y m d k : Z) : MakeDay (y + k) m d = MakeDay y (m + 12 * k) d.
Proof.
  unfold MakeDay.
  replace ((m + 12 * k) / 12) with (m / 12 + k)
    by (rewrite Z.mul_comm, Z.div_add by discriminate; reflexivity).
  replace ((m + 12 * k) mod 12) with (m mod 12)
    by (rewrite Z.mul_comm, Z.mod_add by discriminate; reflexivity).
  replace (y + k + m / 12) with (y + (m / 12 + k)) by lia.
  reflexivity.
Qed.

(** Year, month and date of the first day of a month given with any
    month number. *)
Lemma parts_of_first (y m : Z) :
  getUTCFullYear (makeUTCDate y m 1) = MakeFullYear y + m / 12 /\
  getUTCMonth (makeUTCDate y m 1) = m mod 12 /\
  getUTCDate (makeUTCDate y m 1) = 1.
Proof.
  unfold getUTCFullYear, getUTCMonth, getUTCDate.
  apply parts_of_MakeDay.
  - pose proof (Z.mod_pos_bound m 12 eq_refl). lia.
  - pose proof (daysInMonth_bound (MakeFullYear y + m / 12) (m mod 12)). lia.
  - rewrite Day_makeUTCDate. unfold MakeDay.
    rewrite Z.mod_mod by discriminate.
    rewrite (Z.div_small (m mod 12) 12)
      by (apply Z.mod_pos_bound; reflexivity).
    rewrite Z.add_0_r. reflexivity.
Qed.

Lemma month_start_fixed (c : Date) :
  day_aligned c -> getUTCDate c = 1 -> ~ (0 <= getUTCFullYear c <= 99) ->
  makeUTCDate (getUTCFullYear c) (getUTCMonth c) 1 = c.
Proof.
  intros Hal Hfirst Hy. rewrite <- Hfirst at 1.
  rewrite makeUTCDate_of_parts by assumption.
  unfold day_aligned in Hal. unfold TimeWithinDay. lia.
Qed.

Lemma prev_month_start (c : Date) :
  day_aligned c -> getUTCDate c = 1 -> ~ (0 <= getUTCFullYear c <= 99) ->
  let next := makeUTCDate (getUTCFullYear c) (getUTCMonth c + 1) 1 in
  ~ (0 <= getUTCFullYear next <= 99) ->
  makeUTCDate (getUTCFullYear next) (getUTCMonth next + -1) 1 = c.
Proof.
  intros Hal Hfirst Hy next Hy'.
  destruct (parts_of_first (getUTCFullYear c) (getUTCMonth c + 1))
    as (Hyear & Hmonth & _).
  fold next in Hyear, Hmonth.
  transitivity (makeUTCDate (getUTCFullYear c) (getUTCMonth c) 1);
    [| now apply month_start_fixed].
  unfold makeUTCDate, Date_UTC. f_equal.
  rewrite (MakeFullYear_id (getUTCFullYear next)) by assumption.
  rewrite Hyear, Hmonth, MakeFullYear_id by assumption.
  rewrite MakeDay_carry. f_equal.
  pose proof (Z.div_mod (getUTCMonth c + 1) 12 ltac:(discriminate)). lia.
Qed.

(** X20. With one property selected and no month chosen in the month
    control, Next moves view start and focus from the first of a month
    to the first of the following month, exactly the length of the month
    later, and Prev then brings both back (the focus a midnight on the
    first of a month, in a year after 100). *)
Theorem month_step_round_trip st (c : Date) :
  View.focusDate st = Some c ->
  day_aligned c -> getUTCDate c = 1 -> 100 < getUTCFullYear c ->
  let st1 := View.shiftView_single None st 1 in
  let st2 := View.shiftView_single None st1 (-1) in
  View.viewStart st1 =
    addDays c (daysInMonth (getUTCFullYear c) (getUTCMonth c)) /\
  View.focusDate st1 = Some (View.viewStart st1) /\
  getUTCDate (View.viewStart st1) = 1 /\
  View.viewStart st2 = c /\
  View.focusDate st2 = Some c.
Proof.
  intros Hfocus Hal Hfirst Hy st1 st2.
  assert (Hy0 : ~ (0 <= getUTCFullYear c <= 99)) by lia.
  pose proof (MonthFromTime_range c) as Hm. fold (getUTCMonth c) in Hm.
  set (next := makeUTCDate (getUTCFullYear c) (getUTCMonth c + 1) 1).
  destruct (parts_of_first (getUTCFullYear c) (getUTCMonth c + 1))
    as (Hyear & Hmonth & Hdate).
  fold next in Hyear, Hmonth, Hdate.
  rewrite MakeFullYear_id in Hyear by assumption.
  assert (Hq : 0 <= (getUTCMonth c + 1) / 12)
    by (apply Z.div_pos; lia).
  assert (Hy1 : ~ (0 <= getUTCFullYear next <= 99)) by lia.
  assert (Hnal : day_aligned next) by apply makeUTCDate_aligned.
  assert (Hst1 : st1 = View.mkState next (Some next) (Some (dateToISO next))).
  { subst st1. unfold View.shiftView_single, View.getSelectedMonthStart.
    rewrite Hfocus. cbn [Z.gtb Z.compare].
    rewrite (month_start_fixed c Hal Hfirst Hy0). fold next.
    unfold View.setViewStart. f_equal.
    rewrite Hdate. now apply month_start_fixed. }
  assert (Hst2 : st2 = View.mkState c (Some c) (Some (dateToISO c))).
  { subst st2. rewrite Hst1.
    unfold View.shiftView_single, View.getSelectedMonthStart.
    cbn [View.focusDate Z.gtb Z.compare].
    rewrite (month_start_fixed next Hnal Hdate Hy1).
    pose proof (prev_month_start c Hal Hfirst Hy0) as Hprev.
    cbn zeta in Hprev. fold next in Hprev. rewrite (Hprev Hy1).
    unfold View.setViewStart. f_equal.
    rewrite Hfirst. now apply month_start_fixed. }
  rewrite Hst2, Hst1. cbn [View.viewStart View.focusDate].
  repeat split; try assumption.
  subst next. now apply next_month_start.
Qed.

Lemma month_step_round_trip_witness :
  let c := makeUTCDate 2026 11 1 in
  let st := View.mkState c (Some c) None in
  let st1 := View.shiftView_single None st 1 in
  let st2 := View.shiftView_single None st1 (-1) in
  View.viewStart st1 =
    addDays c (daysInMonth (getUTCFullYear c) (getUTCMonth c)) /\
  View.focusDate st1 = Some (View.viewStart st1) /\
  getUTCDate (View.viewStart st1) = 1 /\
  View.viewStart st2 = c /\
  View.focusDate st2 = Some c.
Proof.
  intros c st.
  apply (month_step_round_trip st c).
  - reflexivity.
  - vm_compute. reflexivity.
  - vm_compute. reflexivity.
  - vm_compute. reflexivity.
Defined.

End MonthNavigation.

(** ** Density preference *)

Section DensityFacts.

Lemma applyDensity_cases (mode item : option string) :
  Density.applyDensity mode item = "compact" \/
  Density.applyDensity mode item = "comfortable".
Proof.
  unfold Density.applyDensity.
  destruct (String.eqb _ "compact"); auto.
Qed.

(** X21. The density toggle only ever stores ['compact'] or
    ['comfortable']; a click stores the opposite of the mode in effect
    (anything but ['compact'] counts as comfortable), so two clicks
    bring the mode in effect back. *)
Theorem density_toggle (item : option string) :
  (Density.click item = "compact" \/ Density.click item = "comfortable") /\
  Density.click item <> Density.applyDensity None item /\
  Density.click (Some (Density.click item)) = Density.applyDensity None item.
Proof.
  unfold Density.click, Density.applyDensity, Density.or_else.
  destruct item as [s |]; cbn.
  - destruct (String.eqb s "") eqn:Hempty.
    + cbn. repeat split; auto; discriminate.
    + destruct (String.eqb s "compact") eqn:Hcompact; cbn;
        repeat split; auto; discriminate.
  - repeat split; auto; discriminate.
Qed.

End DensityFacts.

(** ** Quick turns on well-formed data *)

Lemma quickTurns_wellformed_witness :
  (In (Samples.d 2026 3 5) (Month.quickTurns Samples.turnHouse) <->
   QuickTurnDate Samples.turnHouse (Samples.d 2026 3 5)) /\
  (In (Samples.d 2026 3 5) (Rolling.quickTurns Samples.turnHouse) <->
   QuickTurnDate Samples.turnHouse (Samples.d 2026 3 5)).
Proof.
  apply (quickTurns_wellformed Samples.turnHouse (Samples.d 2026 3 5)).
  split.
  - intros event [<- | [<- | []]]; vm_compute; reflexivity.
  - intros e1 e2 [<- | [<- | []]] [<- | [<- | []]]; cbn;
      intros Huid; try reflexivity; discriminate Huid.
Defined.

(** ** The months offered by the month control *)

#[export] Instance month_same_laws : SameValueZeroLaws (Z * Z).
Proof.
  intros [a1 a2] [b1 b2]. unfold same, month_same. cbn [fst snd].
  rewrite andb_true_iff, !Z.eqb_eq. split.
  - intros [-> ->]. reflexivity.
  - intros [= -> ->]. auto.
Qed.

Section MonthOptionsFacts.

Import MonthOptions.

Lemma monthStartAt_parts (i : Z) :
  getUTCFullYear (monthStartAt i) = i / 12 /\
  getUTCMonth (monthStartAt i) = i mod 12 /\
  getUTCDate (monthStartAt i) = 1.
Proof.
  unfold getUTCFullYear, getUTCMonth, getUTCDate.
  apply parts_of_MakeDay.
  - pose proof (Z.mod_pos_bound i 12 eq_refl). lia.
  - pose proof (daysInMonth_bound (i / 12) (i mod 12)). lia.
  - unfold monthStartAt, Day. rewrite Z.div_mul by discriminate.
    unfold MakeDay.
    rewrite Z.mod_mod by discriminate.
    rewrite (Z.div_small (i mod 12) 12)
      by (apply Z.mod_pos_bound; reflexivity).
    rewrite Z.add_0_r. reflexivity.
Qed.

Lemma monthStartAt_succ (i : Z) : monthStartAt i < monthStartAt (i + 1).
Proof.
  unfold monthStartAt. rewrite MakeDay_next_month.
  pose proof (daysInMonth_bound (0 + i / 12) (i mod 12)).
  pose proof msPerDay_pos. nia.
Qed.

Lemma monthStartAt_mono (i j : Z) : i <= j -> monthStartAt i <= monthStartAt j.
Proof.
  intros Hij. replace j with (i + Z.of_nat (Z.to_nat (j - i))) by lia.
  induction (Z.to_nat (j - i)) as [| n IH].
  - rewrite Z.add_0_r. lia.
  - pose proof (monthStartAt_succ (i + Z.of_nat n)).
    replace (i + Z.of_nat (S n)) with (i + Z.of_nat n + 1) by lia. lia.
Qed.

Lemma monthStartAt_le (i j : Z) : monthStartAt i <= monthStartAt j <-> i <= j.
Proof.
  split; [| apply monthStartAt_mono].
  intros Hle. destruct (Z.le_gt_cases i j) as [? | Hgt]; [assumption |].
  pose proof (monthStartAt_mono (j + 1) i ltac:(lia)).
  pose proof (monthStartAt_succ j). lia.
Qed.

(** The first of the month of a time value is the start of the month
    with its index. *)
Lemma cursor_at_index (t : Date) :
  ~ (0 <= getUTCFullYear t <= 99) ->
  makeUTCDate (getUTCFullYear t) (getUTCMonth t) 1 = monthStartAt (monthIndex t).
Proof.
  intros Hy. unfold makeUTCDate, Date_UTC, monthStartAt, monthIndex.
  rewrite MakeFullYear_id by assumption. f_equal.
  replace (12 * getUTCFullYear t + getUTCMonth t)
    with (getUTCMonth t + 12 * getUTCFullYear t) by lia.
  rewrite <- MakeDay_carry. reflexivity.
Qed.

(** [setUTCMonth] on a month start goes to the next month start. *)
Lemma cursor_advance (i : Z) :
  setUTCMonth (monthStartAt i) (getUTCMonth (monthStartAt i) + 1) =
  monthStartAt (i + 1).
Proof.
  destruct (monthStartAt_parts i) as (Hy & Hm & Hd).
  unfold setUTCMonth, MakeDate.
  unfold getUTCFullYear, getUTCMonth, getUTCDate in *.
  rewrite Hy, Hm, Hd.
  replace (TimeWithinDay (monthStartAt i)) with 0
    by (unfold TimeWithinDay, monthStartAt; symmetry; apply Z.mod_mul; discriminate).
  unfold monthStartAt. rewrite Z.add_0_r. f_equal.
  replace (i / 12) with (0 + i / 12) by lia.
  rewrite MakeDay_carry. f_equal.
  pose proof (Z.div_mod i 12 ltac:(discriminate)). lia.
Qed.

Lemma loop_months (fuel : nat) (i j : Z) (months : JSSet.t (Z * Z)) :
  (Z.to_nat (j - i + 1) < fuel)%nat ->
  exists result,
    loop fuel (monthStartAt i) (monthStartAt j) months = Some result /\
    forall x, In x result <->
      In x months \/ exists k, i <= k <= j /\ x = (k / 12, k mod 12 + 1).
Proof.
  revert i months. induction fuel as [| fuel IH]; intros i months Hfuel; [lia |].
  cbn [loop].
  destruct (Z.leb_spec (monthStartAt i) (monthStartAt j)) as [Hle | Hgt].
  - apply (proj1 (monthStartAt_le i j)) in Hle.
    rewrite cursor_advance.
    assert (Hfuel' : (Z.to_nat (j - (i + 1) + 1) < fuel)%nat).
    { replace (j - i + 1) with (Z.succ (j - (i + 1) + 1)) in Hfuel by lia.
      rewrite Z2Nat.inj_succ in Hfuel by lia. lia. }
    destruct (IH (i + 1) (JSSet.add months (isoMonth (monthStartAt i))) Hfuel')
      as (result & Hloop & Hin).
    exists result. split; [exact Hloop |].
    intros x. rewrite Hin, In_add.
    unfold isoMonth. destruct (monthStartAt_parts i) as (-> & -> & _).
    split.
    + intros [[? | ->] | (k & Hk & ->)]; [now left | |].
      * right. exists i. split; [lia | reflexivity].
      * right. exists k. split; [lia | reflexivity].
    + intros [? | (k & Hk & ->)]; [now left; left |].
      destruct (Z.eq_dec k i) as [-> | Hne]; [now left; right |].
      right. exists k. split; [lia | reflexivity].
  - exists months. split; [reflexivity |].
    assert (Hji : j < i).
    { destruct (Z.lt_ge_cases j i) as [? | Hge]; [assumption |].
      pose proof (monthStartAt_mono i j Hge). lia. }
    intros x. split; [auto | intros [? | (k & Hk & _)]; [assumption | lia]].
Qed.

Lemma month_pair_index (i j : Z) (x : Z * Z) :
  (exists k, i <= k <= j /\ x = (k / 12, k mod 12 + 1)) <->
  1 <= snd x <= 12 /\ i <= 12 * fst x + (snd x - 1) <= j.
Proof.
  destruct x as [y m]. cbn [fst snd]. split.
  - intros (k & Hk & [= -> ->]).
    pose proof (Z.mod_pos_bound k 12 eq_refl).
    pose proof (Z.div_mod k 12 ltac:(discriminate)). lia.
  - intros [Hm Hrange]. exists (12 * y + (m - 1)). split; [assumption |].
    f_equal; Z.div_mod_to_equations; lia.
Qed.

Lemma event_step_months (fuel : nat) (event : Event) (months : JSSet.t (Z * Z)) :
  event_in_range fuel event ->
  exists result,
    event_step fuel (Some months) event = Some result /\
    forall x, In x result <->
      In x months \/
      (1 <= snd x <= 12 /\
       monthIndex (parseDate (start event)) <= 12 * fst x + (snd x - 1)
         <= monthIndex (parseDate (end_ event))).
Proof.
  intros (Hs & He & Hfuel). unfold event_step.
  rewrite !cursor_at_index by lia.
  destruct (loop_months fuel _ _ months Hfuel) as (result & Hloop & Hin).
  exists result. split; [exact Hloop |].
  intros x. rewrite Hin, month_pair_index. reflexivity.
Qed.

Lemma events_months (fuel : nat) (evs : list Event) (months : JSSet.t (Z * Z)) :
  (forall event, In event evs -> event_in_range fuel event) ->
  exists result,
    fold_left (event_step fuel) evs (Some months) = Some result /\
    forall x, In x result <->
      In x months \/
      exists event, In event evs /\
        1 <= snd x <= 12 /\
        monthIndex (parseDate (start event)) <= 12 * fst x + (snd x - 1)
          <= monthIndex (parseDate (end_ event)).
Proof.
  revert months. induction evs as [| ev evs IH]; intros months Hok;
    cbn [fold_left].
  - exists months. split; [reflexivity |].
    intros x. split; [auto | intros [? | (? & [] & _)]; assumption].
  - destruct (event_step_months fuel ev months (Hok ev (or_introl eq_refl)))
      as (mid & -> & Hmid).
    destruct (IH mid (fun e He => Hok e (or_intror He)))
      as (result & Hfold & Hin).
    exists result. split; [exact Hfold |].
    intros x. rewrite Hin, Hmid. split.
    + intros [[? | ?] | (e & ? & ?)]; [now left | |].
      * right. exists ev. cbn. auto.
      * right. exists e. cbn. auto.
    + intros [? | (e & [<- | ?] & ?)]; [now left; left | now left; right |].
      right. exists e. auto.
Qed.

Lemma properties_months (fuel : nat) (properties : list Property)
    (months : JSSet.t (Z * Z)) :
  (forall property event,
      In property properties -> In event (events property) ->
      event_in_range fuel event) ->
  exists result,
    fold_left (fun acc property => fold_left (event_step fuel) (events property) acc)
              properties (Some months) = Some result /\
    forall x, In x result <->
      In x months \/
      exists property event,
        In property properties /\ In event (events property) /\
        1 <= snd x <= 12 /\
        monthIndex (parseDate (start event)) <= 12 * fst x + (snd x - 1)
          <= monthIndex (parseDate (end_ event)).
Proof.
  revert months. induction properties as [| p ps IH]; intros months Hok;
    cbn [fold_left].
  - exists months. split; [reflexivity |].
    intros x. split; [auto | intros [? | (? & ? & [] & _)]; assumption].
  - destruct (events_months fuel (events p) months
                (fun e He => Hok p e (or_introl eq_refl) He))
      as (mid & -> & Hmid).
    destruct (IH mid (fun q e Hq He => Hok q e (or_intror Hq) He))
      as (result & Hfold & Hin).
    exists result. split; [exact Hfold |].
    intros x. rewrite Hin, Hmid. split.
    + intros [[? | (e & ? & ?)] | (q & e & ? & ? & ?)]; [now left | |].
      * right. exists p, e. cbn. auto.
      * right. exists q, e. cbn. auto.
    + intros [? | (q & e & [<- | ?] & ? & ?)]; [now left; left | |].
      * left. right. exists e. auto.
      * right. exists q, e. auto.
Qed.

Lemma rounds_exist (evs : list Event) :
  exists fuel0 : nat,
    forall event, In event evs ->
      (Z.to_nat (monthIndex (parseDate (end_ event))
                 - monthIndex (parseDate (start event)) + 1) < fuel0)%nat.
Proof.
  induction evs as [| ev evs (fuel0 & IH)].
  - exists O. intros ? [].
  - exists (S (Nat.max fuel0
                 (Z.to_nat (monthIndex (parseDate (end_ ev))
                            - monthIndex (parseDate (start ev)) + 1)))).
    intros event [<- | Hin]; [lia |].
    specialize (IH event Hin). lia.
Qed.

(** X23. [buildMonthOptions] finishes, and the months it collects are
    exactly the months from the month of an event's start to the month
    of its end, over all events of all properties; an event whose end
    lies in an earlier month than its start adds none (event years 100
    to 9999). *)
Theorem month_options_cover (properties : list Property) :
  (forall property event,
      In property properties -> In event (events property) ->
      100 <= getUTCFullYear (parseDate (start event)) <= 9999 /\
      100 <= getUTCFullYear (parseDate (end_ event)) <= 9999) ->
  exists fuel0 : nat, forall fuel : nat, (fuel0 <= fuel)%nat ->
    exists result,
      months fuel properties = Some result /\
      forall year month,
        JSSet.has result (year, month) = true <->
        1 <= month <= 12 /\
        exists property event,
          In property properties /\ In event (events property) /\
          monthIndex (parseDate (start event)) <= 12 * year + (month - 1)
            <= monthIndex (parseDate (end_ event)).
Proof.
  intros Hyears.
  destruct (rounds_exist (flat_map events properties)) as (fuel0 & Hrounds).
  exists fuel0. intros fuel Hfuel.
  destruct (properties_months fuel properties JSSet.empty) as (result & Hres & Hin).
  { intros p e Hp He. destruct (Hyears p e Hp He) as [Hs He'].
    repeat split; try lia.
    assert (Hflat : In e (flat_map events properties))
      by (apply in_flat_map; exists p; auto).
    specialize (Hrounds e Hflat). lia. }
  exists result. split; [exact Hres |].
  intros year month. rewrite has_In, Hin. cbn [fst snd]. split.
  - intros [[] | (p & e & ? & ? & ? & ?)]. split; [assumption |].
    exists p, e. auto.
  - intros [? (p & e & ? & ? & ?)]. right. exists p, e. auto.
Qed.

Lemma month_options_cover_witness :
  exists fuel0 : nat, forall fuel : nat, (fuel0 <= fuel)%nat ->
    exists result,
      months fuel [Samples.house] = Some result /\
      forall year month,
        JSSet.has result (year, month) = true <->
        1 <= month <= 12 /\
        exists property event,
          In property [Samples.house] /\ In event (events property) /\
          monthIndex (parseDate (start event)) <= 12 * year + (month - 1)
            <= monthIndex (parseDate (end_ event)).
Proof.
  apply (month_options_cover [Samples.house]).
  intros property event [<- | []] [<- | [<- | []]];
    vm_compute; repeat split; discriminate.
Defined.

End MonthOptionsFacts.

(** ** Cells of the month grid and the rolling window *)

Section GridCells.

(** The month number of a day up to a week before or after a month. *)
Lemma month_near (monthStart : Date) (j : Z) :
  getUTCDate monthStart = 1 ->
  let dim := daysInMonth (getUTCFullYear monthStart) (getUTCMonth monthStart) in
  -7 <= j < dim + 7 ->
  (getUTCMonth (addDays monthStart j) = getUTCMonth monthStart <-> 0 <= j < dim).
Proof.
  intros Hfirst dim Hj.
  set (Y := getUTCFullYear monthStart) in *.
  set (M := getUTCMonth monthStart) in *.
  pose proof (MonthFromTime_range monthStart) as HM. fold (getUTCMonth monthStart) in HM.
  fold M in HM.
  pose proof (daysInMonth_bound Y M) as Hdim. fold dim in Hdim.
  assert (Hday : Day (addDays monthStart j) = MakeDay Y M 1 + j).
  { rewrite Day_addDays. f_equal. rewrite <- Hfirst.
    symmetry. apply MakeDay_of_parts. }
  destruct (Z_lt_ge_dec j 0) as [Hneg | Hnn].
  - (* the month before *)
    pose proof (MakeDay_next_month Y (M - 1) 1) as Hprev.
    replace (M - 1 + 1) with M in Hprev by lia.
    set (Y' := Y + (M - 1) / 12) in *. set (M' := (M - 1) mod 12) in *.
    pose proof (daysInMonth_bound Y' M') as Hdim'.
    assert (HM' : 0 <= M' <= 11)
      by (pose proof (Z.mod_pos_bound (M - 1) 12 eq_refl); subst M'; lia).
    destruct (parts_of_MakeDay Y' M' (daysInMonth Y' M' + 1 + j)
                (addDays monthStart j)) as (_ & Hmonth & _); [lia | lia | |].
    + rewrite Hday, Hprev, (MakeDay_date Y' M').
      rewrite (MakeDay_date Y (M - 1) 1).
      replace (MakeDay Y (M - 1) 1) with (MakeDay Y' M' 1); [lia |].
      unfold MakeDay. subst Y' M'.
      rewrite Z.mod_mod by discriminate.
      rewrite (Z.div_small ((M - 1) mod 12) 12)
        by (apply Z.mod_pos_bound; reflexivity).
      rewrite Z.add_0_r. reflexivity.
    + unfold getUTCMonth at 1. rewrite Hmonth.
      split; [| lia]. subst M'. intros Heq.
      assert (M = 0 \/ 1 <= M) as [H0 | H1] by lia.
      * rewrite H0 in Heq. cbn in Heq. lia.
      * rewrite Z.mod_small in Heq by lia. lia.
  - destruct (Z_lt_ge_dec j dim) as [Hin | Hout].
    + (* the month itself *)
      destruct (parts_of_MakeDay Y M (1 + j) (addDays monthStart j))
        as (_ & Hmonth & _); [lia | unfold dim in *; lia | |].
      * rewrite Hday, (MakeDay_date Y M (1 + j)). lia.
      * unfold getUTCMonth at 1. rewrite Hmonth. split; [lia | reflexivity].
    + (* the month after *)
      pose proof (MakeDay_next_month Y M 1) as Hnext.
      rewrite (Z.div_small M 12), (Z.mod_small M 12), Z.add_0_r in Hnext by lia.
      fold dim in Hnext.
      set (Y' := Y + (M + 1) / 12). set (M' := (M + 1) mod 12).
      pose proof (daysInMonth_bound Y' M') as Hdim'.
      assert (HM' : 0 <= M' <= 11)
        by (pose proof (Z.mod_pos_bound (M + 1) 12 eq_refl); subst M'; lia).
      destruct (parts_of_MakeDay Y' M' (1 + (j - dim)) (addDays monthStart j))
        as (_ & Hmonth & _); [lia | lia | |].
      * rewrite Hday, (MakeDay_date Y' M').
        replace (MakeDay Y' M' 1) with (MakeDay Y (M + 1) 1); [lia |].
        unfold MakeDay. subst Y' M'.
        rewrite Z.mod_mod by discriminate.
        rewrite (Z.div_small ((M + 1) mod 12) 12)
          by (apply Z.mod_pos_bound; reflexivity).
        rewrite Z.add_0_r. reflexivity.
      * unfold getUTCMonth at 1. rewrite Hmonth.
        split; [| lia]. subst M'. intros Heq.
        assert (M = 11 \/ M <= 10) as [H11 | H10] by lia.
        -- rewrite H11 in Heq. cbn in Heq. lia.
        -- rewrite Z.mod_small in Heq by lia. lia.
Qed.

(** X24. In the month view the cells that do not get the class
    ['outside'] are exactly the days of the month: a cell of the grid is
    inside the month as soon as its month number equals that of the
    month start, the padding days before and after all falling in the
    neighbouring months. *)
Theorem outside_cells (monthStart : Date) (w d : Z) :
  day_aligned monthStart -> getUTCDate monthStart = 1 ->
  100 <= getUTCFullYear monthStart ->
  let g := MonthGrid.grid monthStart in
  0 <= w < MonthGrid.weeks g -> 0 <= d < 7 ->
  (MonthGrid.outside monthStart (MonthGrid.cellDate g w d) = false <->
   monthStart <= MonthGrid.cellDate g w d < MonthGrid.monthEndExclusive g).
Proof.
  intros Hal Hfirst Hy g Hw Hd.
  assert (Hy0 : ~ (0 <= getUTCFullYear monthStart <= 99)) by lia.
  pose proof (daysInMonth_bound (getUTCFullYear monthStart) (getUTCMonth monthStart))
    as Hdim.
  pose proof msPerDay_pos as Hms.
  (* the grid in day offsets from the month start *)
  assert (Hgrid : exists a n,
    0 <= a < 7 /\ MonthGrid.gridStart g = addDays monthStart (- a) /\
    MonthGrid.weeks g = n /\
    7 * n - a <
      daysInMonth (getUTCFullYear monthStart) (getUTCMonth monthStart) + 7 /\
    MonthGrid.monthEndExclusive g =
      addDays monthStart
        (daysInMonth (getUTCFullYear monthStart) (getUTCMonth monthStart))).
  { subst g. unfold MonthGrid.grid.
    cbn [MonthGrid.gridStart MonthGrid.weeks MonthGrid.totalDays
         MonthGrid.gridEndExclusive MonthGrid.monthEndExclusive].
    rewrite next_month_start by assumption.
    set (dim := daysInMonth _ _) in *.
    rewrite !startOfWeek_offset, !Day_addDays.
    set (D := Day monthStart).
    set (a := (D + 3) mod 7). set (b := (D + dim + -1 + 3) mod 7).
    assert (Ha : 0 <= a < 7) by (apply Z.mod_pos_bound; reflexivity).
    assert (Hb : 0 <= b < 7) by (apply Z.mod_pos_bound; reflexivity).
    assert (Hab : exists n, dim + 6 + a - b = 7 * n).
    { exists ((dim + 6 + a - b) / 7). subst a b. Z.div_mod_to_equations. lia. }
    destruct Hab as (n & Hn).
    exists a, n. repeat split; try lia.
    unfold diffDays, addDays.
    replace (monthStart + dim * msPerDay + -1 * msPerDay + - b * msPerDay
             + 7 * msPerDay - (monthStart + - a * msPerDay))
      with ((7 * n) * msPerDay) by lia.
    rewrite round_days. apply Math_ceil_div_weeks. }
  destruct Hgrid as (a & n & Ha & Hgs & Hn & Hlast & Hend).
  unfold MonthGrid.cellDate, MonthGrid.weekStart. rewrite Hgs, Hend.
  replace (addDays (addDays (addDays monthStart (- a)) (w * 7)) d)
    with (addDays monthStart (w * 7 + d - a)) by (unfold addDays; lia).
  unfold MonthGrid.outside. rewrite negb_false_iff, Z.eqb_eq.
  rewrite (month_near monthStart (w * 7 + d - a) Hfirst) by (cbn zeta; lia).
  unfold addDays. split; intros; nia.
Qed.

Lemma outside_cells_witness :
  let monthStart := makeUTCDate 2026 1 1 in
  let g := MonthGrid.grid monthStart in
  MonthGrid.outside monthStart (MonthGrid.cellDate g 0 6) = false <->
  monthStart <= MonthGrid.cellDate g 0 6 < MonthGrid.monthEndExclusive g.
Proof.
  intros monthStart.
  apply (outside_cells monthStart 0 6).
  - vm_compute. reflexivity.
  - vm_compute. reflexivity.
  - vm_compute. discriminate.
  - vm_compute. split; [discriminate | reflexivity].
  - lia.
Defined.

(** X25. The window of the rolling view always holds the view start
    (a midnight); it starts at [MIN_DATE] when the view start lies in
    the 365 days from [MIN_DATE] and at the view start itself otherwise,
    also when that is before [MIN_DATE]: there is no lower clamp in
    [renderCalendar]. *)
Theorem rolling_window_holds_view_start (viewStart : Date) :
  day_aligned viewStart ->
  let rangeStart := fst (Rolling.window viewStart) in
  let rangeEndExclusive := snd (Rolling.window viewStart) in
  rangeStart <= viewStart < rangeEndExclusive /\
  (Rolling.MIN_DATE <= viewStart < addDays Rolling.MIN_DATE Rolling.VIEW_DAYS ->
   rangeStart = Rolling.MIN_DATE) /\
  (viewStart < Rolling.MIN_DATE \/
   addDays Rolling.MIN_DATE Rolling.VIEW_DAYS <= viewStart ->
   rangeStart = viewStart).
Proof.
  intros Hal. cbn zeta. unfold Rolling.window.
  assert (Hmin : day_aligned Rolling.MIN_DATE) by apply makeUTCDate_aligned.
  pose proof (diffDays_aligned_exact Rolling.MIN_DATE viewStart Hmin Hal) as Hexact.
  pose proof msPerDay_pos as Hms.
  rewrite Z.geb_leb.
  destruct (Z.leb_spec 0 (diffDays Rolling.MIN_DATE viewStart));
    destruct (Z.ltb_spec (diffDays Rolling.MIN_DATE viewStart) Rolling.VIEW_DAYS);
    cbn [andb fst snd]; unfold addDays, Rolling.VIEW_DAYS in *;
    repeat split; intros; try reflexivity; nia.
Qed.

Lemma rolling_window_holds_view_start_witness :
  let viewStart := makeUTCDate 2025 11 1 in
  let rangeStart := fst (Rolling.window viewStart) in
  let rangeEndExclusive := snd (Rolling.window viewStart) in
  rangeStart <= viewStart < rangeEndExclusive /\
  (Rolling.MIN_DATE <= viewStart < addDays Rolling.MIN_DATE Rolling.VIEW_DAYS ->
   rangeStart = Rolling.MIN_DATE) /\
  (viewStart < Rolling.MIN_DATE \/
   addDays Rolling.MIN_DATE Rolling.VIEW_DAYS <= viewStart ->
   rangeStart = viewStart).
Proof.
  intros viewStart.
  apply (rolling_window_holds_view_start viewStart).
  vm_compute. reflexivity.
Defined.

End GridCells.
